(** * screen_time_checker.py: aggregation and rendering pipeline

    A shallow embedding of [ScreenTimeChecker] (duration formatting, bar
    chart, hourly histogram, ranked report) and of the command dispatch in
    [main], together with the properties of the specification that concern
    them.

    Modelling conventions.
    - Python [float] values (seconds, percentages) are rationals [Q] with
      exact arithmetic; numeric results are compared with [==].
    - Python [str] is a Rocq [string] holding the UTF-8 bytes; lengths and
      slices count code points ([py_len], [py_take]).
    - An exception is a value [Raise e] of [result]; [print] appends to the
      list of printed strings threaded by the monad [M].
    - The usage database, the name-resolution service and the local clock
      are outside the program: the rows they return are arguments.
    - The modules [Names], [Store] and [Program] make them explicit: name
      resolution over the answers of the operating system, the two SQL
      queries over the rows of the table, and the whole program over a
      [world]; printing and writing the export file are taken to succeed. *)

From Stdlib Require Import ZArith QArith Qround Qabs Lqa Lia.
From Stdlib Require Import String Ascii List DecimalString.
From stdpp Require Import base option list gmap sorting.

Local Open Scope Z_scope.

(* ================================================================== *)
(** ** Python primitives *)
(* ================================================================== *)

Module Py.

Inductive exn : Type :=
| ZeroDivisionError
| ValueError
| KeyError
| IndexError
| OverflowError.

Inductive result (A : Type) : Type :=
| Ok (a : A)
| Raise (e : exn).
Arguments Ok {A} a.
Arguments Raise {A} e.

#[global] Instance result_ret : MRet result := fun _ a => Ok a.

#[global] Instance result_bind : MBind result := fun _ _ k r =>
  match r with
  | Ok a => k a
  | Raise e => Raise e
  end.

#[global] Instance result_fmap : FMap result := fun _ _ f r =>
  match r with
  | Ok a => Ok (f a)
  | Raise e => Raise e
  end.

(** [for x in xs: ys.append(f x)], stopping at the first exception. *)
Fixpoint rmap {A B} (f : A -> result B) (xs : list A) : result (list B) :=
  match xs with
  | [] => Ok []
  | x :: xs' => y ← f x; ys ← rmap f xs'; Ok (y :: ys)
  end.

(** [for x in xs: acc = f acc x], stopping at the first exception. *)
Fixpoint rfold {A B} (f : B -> A -> result B) (acc : B) (xs : list A)
  : result B :=
  match xs with
  | [] => Ok acc
  | x :: xs' => acc' ← f acc x; rfold f acc' xs'
  end.

(** *** Standard output

    A computation that prints: it takes the strings printed so far and
    returns them extended, with its value or the exception that ended it. *)

Definition M (A : Type) : Type := list string -> result A * list string.

#[global] Instance M_ret : MRet M := fun _ a out => (Ok a, out).

#[global] Instance M_bind : MBind M := fun _ _ k c out =>
  match c out with
  | (Ok a, out') => k a out'
  | (Raise e, out') => (Raise e, out')
  end.

(** [print(s)] *)
Definition print (s : string) : M unit := fun out => (Ok tt, out ++ [s]).

(** A pure, possibly raising, expression evaluated inside [M]. *)
Definition lift {A} (r : result A) : M A := fun out => (r, out).

(** [try: c except E: h] *)
Definition try_except {A} (c : M A) (E : exn -> bool) (h : M A) : M A :=
  fun out =>
    match c out with
    | (Raise e, out') => if E e then h out' else (Raise e, out')
    | ok => ok
    end.

(** *** Numbers *)

Definition Qltb (a b : Q) : bool := negb (Qle_bool b a).

(** [a / b] on floats. *)
Definition py_div (a b : Q) : result Q :=
  if Qeq_bool b 0 then Raise ZeroDivisionError else Ok (a / b)%Q.

(** [a // b] and [a % b] on floats, for a non-zero constant divisor. *)
Definition py_floordiv (a b : Q) : Q := inject_Z (Qfloor (a / b)).
Definition py_mod (a b : Q) : Q := (a - b * py_floordiv a b)%Q.

(** [int(x)]: truncation toward zero. *)
Definition py_trunc (x : Q) : Z :=
  if Qltb x 0 then Qceiling x else Qfloor x.

(** Rounding to the nearest integer, ties to the even one: the rounding of
    [round] and of the [f] format specifier. *)
Definition round_half_even (x : Q) : Z :=
  let f := Qfloor x in
  match Qcompare (x - inject_Z f) (1 # 2) with
  | Lt => f
  | Gt => f + 1
  | Eq => if Z.even f then f else f + 1
  end.

(** [max(xs)] *)
Fixpoint py_max_from (m : Q) (xs : list Q) : Q :=
  match xs with
  | [] => m
  | x :: xs' => py_max_from (if Qltb m x then x else m) xs'
  end.

Definition py_max (xs : list Q) : result Q :=
  match xs with
  | [] => Raise ValueError
  | x :: xs' => Ok (py_max_from x xs')
  end.

(** [sum(xs)] *)
Definition py_sum (xs : list Q) : Q := fold_left Qplus xs 0%Q.

(** *** Strings *)

Local Open Scope string_scope.

(** [str(n)] for an integer. *)
Definition str_of_Z (n : Z) : string := NilZero.string_of_int (Z.to_int n).

(** A byte [10xxxxxx] continues a code point. *)
Definition is_continuation (c : ascii) : bool :=
  let n := N_of_ascii c in (128 <=? n)%N && (n <? 192)%N.

(** [len(s)] *)
Fixpoint py_len (s : string) : nat :=
  match s with
  | EmptyString => O
  | String c s' => if is_continuation c then py_len s' else S (py_len s')
  end.

(** [s[:n]] *)
Fixpoint py_take (n : nat) (s : string) : string :=
  match s with
  | EmptyString => EmptyString
  | String c s' =>
      if is_continuation c then String c (py_take n s')
      else match n with
           | O => EmptyString
           | S n' => String c (py_take n' s')
           end
  end.

(** [s * n] *)
Fixpoint str_repeat_nat (s : string) (n : nat) : string :=
  match n with
  | O => EmptyString
  | S n' => s ++ str_repeat_nat s n'
  end.

Definition str_repeat (s : string) (n : Z) : string :=
  str_repeat_nat s (Z.to_nat n).

Definition spaces (n : nat) : string := str_repeat_nat " " n.

(** [s.ljust(w)], [s.rjust(w)] and [s.center(w)]; the left margin of
    [center] is [marg // 2 + (marg & w & 1)]. *)
Definition ljust (w : nat) (s : string) : string :=
  s ++ spaces (w - py_len s).

Definition rjust (w : nat) (s : string) : string :=
  spaces (w - py_len s) ++ s.

Definition center (w : nat) (s : string) : string :=
  let marg := (w - py_len s)%nat in
  let left := (marg / 2 + (if Nat.odd marg && Nat.odd w then 1 else 0))%nat in
  spaces left ++ s ++ spaces (marg - left).

(** [format(x, ".0f")] and [format(x, ".1f")]. *)
Definition fmt_0f (x : Q) : string :=
  if Qltb x 0 then "-" ++ str_of_Z (round_half_even (- x))
  else str_of_Z (round_half_even x).

Definition fmt_tenths (n : Z) : string :=
  str_of_Z (n / 10) ++ "." ++ str_of_Z (n mod 10).

Definition fmt_1f (x : Q) : string :=
  if Qltb x 0 then "-" ++ fmt_tenths (round_half_even (- x * 10))
  else fmt_tenths (round_half_even (x * 10)).

(** [s.lower()], on the ASCII letters. *)
Definition lower_ascii (c : ascii) : ascii :=
  let n := N_of_ascii c in
  if (65 <=? n)%N && (n <=? 90)%N then ascii_of_N (n + 32) else c.

Fixpoint lower (s : string) : string :=
  match s with
  | EmptyString => EmptyString
  | String c s' => String (lower_ascii c) (lower s')
  end.

(** [int(s)] for a string, base 10: surrounding white space, an optional
    sign, then decimal digits in groups separated by single underscores.
    The digits are the ASCII ones. *)
Definition is_space (c : ascii) : bool :=
  let n := N_of_ascii c in ((9 <=? n)%N && (n <=? 13)%N) || (n =? 32)%N.

Definition digit_of (c : ascii) : option Z :=
  let n := N_of_ascii c in
  if (48 <=? n)%N && (n <=? 57)%N then Some (Z.of_N n - 48) else None.

Fixpoint lstrip (l : list ascii) : list ascii :=
  match l with
  | c :: l' => if is_space c then lstrip l' else l
  | [] => []
  end.

Definition strip (l : list ascii) : list ascii :=
  rev (lstrip (rev (lstrip l))).

Fixpoint parse_digits (acc : Z) (after_digit : bool) (l : list ascii)
  : option Z :=
  match l with
  | [] => if after_digit then Some acc else None
  | c :: l' =>
      match digit_of c with
      | Some d => parse_digits (acc * 10 + d) true l'
      | None =>
          if Ascii.eqb c "_" && after_digit then parse_digits acc false l'
          else None
      end
  end.

Definition parse_int (s : string) : option Z :=
  match strip (list_ascii_of_string s) with
  | c :: l' =>
      if Ascii.eqb c "-" then Z.opp <$> parse_digits 0 false l'
      else if Ascii.eqb c "+" then parse_digits 0 false l'
      else parse_digits 0 false (c :: l')
  | [] => None
  end.

Definition py_int (s : string) : result Z :=
  match parse_int s with
  | Some n => Ok n
  | None => Raise ValueError
  end.

End Py.

Import Py.
Local Open Scope string_scope.

(* ================================================================== *)
(** ** [ScreenTimeChecker.format_time] *)
(* ================================================================== *)

Definition format_time (seconds : Q) : string :=
  if Qltb seconds 60 then
    fmt_0f seconds ++ "秒"
  else if Qltb seconds 3600 then
    fmt_1f (seconds / 60) ++ "分钟"
  else
    let hours := py_floordiv seconds 3600 in
    let minutes := py_floordiv (py_mod seconds 3600) 60 in
    if Qltb 0 minutes then
      fmt_0f hours ++ "小时" ++ fmt_0f minutes ++ "分钟"
    else
      fmt_1f hours ++ "小时".

(* ================================================================== *)
(** ** Rows of the usage database *)
(* ================================================================== *)

(** A row of [get_usage_data]: [(bundle_id, seconds)]. *)
Definition usage_row : Type := string * Q.

(** A row of the interval query of [get_hourly_usage]:
    [(bundle_id, start_time, end_time, duration)]. *)
Record interval : Type := mk_interval {
  iv_bundle_id : string;
  iv_start_time : Q;
  iv_end_time : Q;
  iv_duration : Q
}.

(** [sum(seconds for _, seconds in usage_data)] *)
Definition total_of (usage_data : list usage_row) : Q :=
  py_sum (map snd usage_data).

(** [(seconds / total_seconds) * 100] *)
Definition percentage_of (seconds total_seconds : Q) : result Q :=
  share ← py_div seconds total_seconds;
  Ok (share * 100)%Q.

(* ================================================================== *)
(** ** [ScreenTimeChecker.create_bar_chart] *)
(* ================================================================== *)

(** The fields interpolated into one chart line. *)
Record chart_row : Type := mk_chart_row {
  row_name : string;
  row_bar_length : Z;
  row_bar : string;
  row_percentage : Q;
  row_time : string
}.

Definition full_block : string := "█".
Definition light_shade : string := "░".

Section BarChart.

(** [self.get_app_name]: the name-resolution service. *)
Variable get_app_name : string -> string.

(** One iteration of the loop of [create_bar_chart]. *)
Definition bar_chart_row (usage_data : list usage_row) (max_seconds : Q)
    (max_width : Z) (rec : usage_row) : result chart_row :=
  let '(bundle_id, seconds) := rec in
  let app_name := get_app_name bundle_id in
  let app_name :=
    if (15 <? py_len app_name)%nat then py_take 12 app_name ++ "..."
    else app_name in
  ratio ← py_div seconds max_seconds;
  let bar_length := py_trunc (ratio * inject_Z max_width) in
  let bar := str_repeat full_block bar_length
             ++ str_repeat light_shade (max_width - bar_length) in
  percentage ← percentage_of seconds (total_of usage_data);
  let time_str := format_time seconds in
  Ok (mk_chart_row app_name bar_length bar percentage time_str).

(** [f"{app_name:<15} {bar} {percentage:4.1f}% ({time_str})"] *)
Definition render_chart_row (r : chart_row) : string :=
  ljust 15 (row_name r) ++ " " ++ row_bar r ++ " "
  ++ rjust 4 (fmt_1f (row_percentage r)) ++ "% (" ++ row_time r ++ ")".

Definition bar_chart_rows (usage_data : list usage_row) (max_width : Z)
  : result (list chart_row) :=
  match usage_data with
  | [] => Ok []
  | _ =>
      max_seconds ← py_max (map snd usage_data);
      rmap (bar_chart_row usage_data max_seconds max_width) usage_data
  end.

Definition create_bar_chart (usage_data : list usage_row) (max_width : Z)
  : result (list string) :=
  map render_chart_row <$> bar_chart_rows usage_data max_width.

End BarChart.

(* ================================================================== *)
(** ** [ScreenTimeChecker.get_hourly_usage] *)
(* ================================================================== *)

Section Hourly.

(** [datetime.fromtimestamp(t).hour]: the hour of the local clock. *)
Variable fromtimestamp_hour : Q -> result nat.

(** [for i in range(24): hourly_usage[i] = 0] *)
Definition zero_buckets : gmap nat Q :=
  foldl (fun m i => <[i := 0%Q]> m) ∅ (seq 0 24).

(** [hourly_usage[start_hour] += duration] *)
Definition add_interval (hourly_usage : gmap nat Q) (r : interval)
  : result (gmap nat Q) :=
  start_hour ← fromtimestamp_hour (iv_start_time r);
  match hourly_usage !! start_hour with
  | Some v => Ok (<[start_hour := (v + iv_duration r)%Q]> hourly_usage)
  | None => Raise KeyError
  end.

Definition hourly_buckets (records : list interval) : result (gmap nat Q) :=
  rfold add_interval zero_buckets records.

(** The body of [get_hourly_usage] after the query returned [records];
    the [except] branch prints a message and returns the empty dict. *)
Definition get_hourly_usage (records : list interval) : gmap nat Q :=
  match hourly_buckets records with
  | Ok hourly_usage => hourly_usage
  | Raise _ => ∅
  end.

End Hourly.

(* ================================================================== *)
(** ** [ScreenTimeChecker.create_hourly_chart] *)
(* ================================================================== *)

(** [hourly_usage.values()]; the order of the view matters to no caller. *)
Definition values (hourly_usage : gmap nat Q) : list Q :=
  snd <$> map_to_list hourly_usage.

(** [max(hourly_usage.values()) if hourly_usage.values() else 1], then
    [if max_usage == 0: max_usage = 1]. *)
Definition chart_divisor (hourly_usage : gmap nat Q) : result Q :=
  max_usage ← match values hourly_usage with
              | [] => Ok 1%Q
              | vs => py_max vs
              end;
  Ok (if Qeq_bool max_usage 0 then 1%Q else max_usage).

(** [range(max_height, 0, -1)] *)
Definition levels (max_height : Z) : list Z :=
  map (fun i => max_height - Z.of_nat i) (seq 0 (Z.to_nat max_height)).

Definition chart_cell (hourly_usage : gmap nat Q) (max_usage : Q)
    (max_height level : Z) (hour : nat) : result string :=
  let usage := default 0%Q (hourly_usage !! hour) in
  ratio ← py_div usage max_usage;
  let height := py_trunc (ratio * inject_Z max_height) in
  Ok (if (level <=? height)%Z then full_block else " ").

Definition chart_line (hourly_usage : gmap nat Q) (max_usage : Q)
    (max_height level : Z) : result string :=
  cells ← rmap (chart_cell hourly_usage max_usage max_height level) (seq 0 24);
  Ok (String.concat EmptyString cells).

(** [f"{hour:2d}".ljust(3)] for [hour in range(0, 24, 3)] *)
Definition hour_labels : string :=
  String.concat EmptyString
    (map (fun k => ljust 3 (rjust 2 (str_of_Z (3 * Z.of_nat k)))) (seq 0 8)).

Definition create_hourly_chart (hourly_usage : gmap nat Q) (max_height : Z)
  : result (list string) :=
  if decide (hourly_usage = ∅) then Ok []
  else
    max_usage ← chart_divisor hourly_usage;
    chart_lines ← rmap (chart_line hourly_usage max_usage max_height)
                    (levels max_height);
    Ok (chart_lines ++ [str_repeat "-" 24; hour_labels])%list.

(* ================================================================== *)
(** ** [ScreenTimeChecker.print_usage_report] and [main] *)
(* ================================================================== *)

Definition newline : string := String (ascii_of_nat 10) EmptyString.
Definition dquote : string := String (ascii_of_nat 34) EmptyString.

(** The window label of the report header. *)
Definition period_label (days : Z) : string :=
  if (days =? 1)%Z then "过去 24 小时"
  else if (days =? 7)%Z then "过去 7 天"
  else if (days =? 30)%Z then "过去 30 天"
  else "过去 " ++ str_of_Z days ++ " 天".

(** [f"    ... 还有 {remaining} 个应用，剩余时长：{...}"] *)
Definition more_line (remaining : Z) (remaining_seconds : Q) : string :=
  "    ... 还有 " ++ str_of_Z remaining ++ " 个应用，剩余时长："
  ++ format_time remaining_seconds.

Definition help_text : string :=
  "
🔍 macOS 屏幕使用时间查询工具

使用方法：
  python3 screen_time_checker.py [选项]

选项：
  (无参数)         显示过去24小时使用情况
  1, 24h, today    过去24小时
  7, 7d, week      过去7天
  30, 30d, month   过去30天
  v, visual, iphone [天数]  iPhone风格可视化界面
  debug [天数]     调试模式，显示详细计算信息
  export [天数]    导出JSON格式数据（默认1天）
  help             显示此帮助信息

示例：
  python3 screen_time_checker.py
  python3 screen_time_checker.py 7
  python3 screen_time_checker.py visual
  python3 screen_time_checker.py iphone 7
  python3 screen_time_checker.py debug 1
  python3 screen_time_checker.py export 7

注意：
  - 首次运行需要授予 Terminal " ++ dquote ++ "完全磁盘访问" ++ dquote ++ " 权限
  - 数据来源：~/Library/Application Support/Knowledge/knowledgeC.db
            ".

Section Report.

Variable get_app_name : string -> string.

(** [self.get_usage_data(days)]: the rows of the aggregate query, or
    [[]] after an error message when the database cannot be read. *)
Variable get_usage_data : Z -> M (list usage_row).

(** [self.export_to_json(days)] writes a file; it is not modelled. *)
Variable export_to_json : Z -> M unit.

(** [f"{i:2d}. {app_name:<25} {format_time(seconds):>12} ({percentage:4.1f}%)"] *)
Definition report_line (total_seconds : Q) (i : Z) (rec : usage_row)
  : result string :=
  let '(bundle_id, seconds) := rec in
  let app_name := get_app_name bundle_id in
  percentage ← percentage_of seconds total_seconds;
  Ok (rjust 2 (str_of_Z i) ++ ". " ++ ljust 25 app_name ++ " "
      ++ rjust 12 (format_time seconds)
      ++ " (" ++ rjust 4 (fmt_1f percentage) ++ "%)").

(** The [for i, (bundle_id, seconds) in enumerate(usage_data, 1)] loop of
    the list style, from rank [i] on; it returns [displayed_seconds]. *)
Fixpoint list_loop (len_usage_data : Z) (total_seconds : Q) (i : Z)
    (displayed_seconds : Q) (rest : list usage_row) : M Q :=
  match rest with
  | [] => mret displayed_seconds
  | rec :: rest' =>
      line ← lift (report_line total_seconds i rec);
      print line;;
      let displayed_seconds := (displayed_seconds + snd rec)%Q in
      if (20 <=? i)%Z then
        let remaining := (len_usage_data - 20)%Z in
        (if (0 <? remaining)%Z then
           let remaining_seconds := (total_seconds - displayed_seconds)%Q in
           print (more_line remaining remaining_seconds)
         else mret tt);;
        mret displayed_seconds
      else
        list_loop len_usage_data total_seconds (i + 1) displayed_seconds rest'
  end.

Fixpoint print_each (indent : string) (lines : list string) : M unit :=
  match lines with
  | [] => mret tt
  | line :: lines' => print (indent ++ line);; print_each indent lines'
  end.

Definition rule (c : string) (n : Z) : string := str_repeat c n.

Definition print_usage_report (days : Z) (debug visual : bool) : M unit :=
  usage_data ← get_usage_data days;
  match usage_data with
  | [] => print "😔 没有找到使用数据"
  | _ =>
      let period := period_label days in
      let total_seconds := total_of usage_data in
      let len_usage_data := Z.of_nat (length usage_data) in
      if visual then
        print (newline ++ rule "─" 60);;
        print (center 60 "🔋 电池");;
        print (rule "─" 60);;
        print (center 60 period);;
        print EmptyString;;
        let time_str := format_time total_seconds in
        print (center 60 "屏幕总使用时间");;
        print (center 60 time_str);;
        print EmptyString;;
        print (center 60 "App的使用时长");;
        print (rule "─" 60);;
        chart_lines ← lift (create_bar_chart get_app_name usage_data 30);
        print_each "  " chart_lines;;
        print (rule "─" 60)
      else
        print (newline ++ "📱 " ++ period ++ " 应用使用时长报告");;
        print (rule "=" 50);;
        print ("📊 总使用时长：" ++ format_time total_seconds);;
        (if debug then
           print ("🔍 调试信息：总秒数 = " ++ fmt_0f total_seconds
                  ++ ", 总应用数 = " ++ str_of_Z len_usage_data)
         else mret tt);;
        print (rule "-" 50);;
        displayed_seconds ←
          list_loop len_usage_data total_seconds 1 0%Q usage_data;
        if debug && (len_usage_data <=? 20)%Z then
          let manual_total := total_of usage_data in
          print (newline ++ "🔍 计算验证：");;
          print ("   自动计算总时长: " ++ fmt_0f total_seconds ++ " 秒");;
          print ("   手动计算总时长: " ++ fmt_0f manual_total ++ " 秒");;
          print ("   显示的应用总时长: " ++ fmt_0f displayed_seconds ++ " 秒");;
          if Qltb 1 (Qabs (total_seconds - manual_total)) then
            print "   ⚠️ 计算可能有误差！"
          else mret tt
        else mret tt
  end.

Definition one_of (command : string) (tokens : list string) : bool :=
  existsb (String.eqb command) tokens.

Definition is_ValueError (e : exn) : bool :=
  match e with ValueError => true | _ => false end.

(** [int(sys.argv[2]) if len(sys.argv) > 2 else 1] *)
Definition day_argument (argv : list string) : result Z :=
  match argv with
  | _ :: _ :: a2 :: _ => py_int a2
  | _ => Ok 1%Z
  end.

Definition main (argv : list string) : M unit :=
  match argv with
  | [] => lift (Raise IndexError)
  | [_] => print_usage_report 1 false true
  | _ :: a1 :: _ =>
      let command := lower a1 in
      if one_of command ["1"; "24h"; "today"] then
        print_usage_report 1 false false
      else if one_of command ["7"; "7d"; "week"] then
        print_usage_report 7 false false
      else if one_of command ["30"; "30d"; "month"] then
        print_usage_report 30 false false
      else if one_of command ["v"; "visual"; "iphone"] then
        days ← lift (day_argument argv);
        print_usage_report days false true
      else if String.eqb command "export" then
        days ← lift (day_argument argv);
        export_to_json days
      else if String.eqb command "debug" then
        days ← lift (day_argument argv);
        print_usage_report days true false
      else if String.eqb command "help" then
        print help_text
      else
        try_except
          (days ← lift (py_int command);
           print_usage_report days false false)
          is_ValueError
          (print ("❌ 未知命令：" ++ command);;
           print "使用 'help' 查看帮助信息")
  end.

End Report.

(* ================================================================== *)
(** ** Vocabulary of the specification *)
(* ================================================================== *)

(** A [UsageRecord] has a non-negative [seconds] field. *)
Definition usage_records (usage_data : list usage_row) : Prop :=
  Forall (fun rec => (0 <= snd rec)%Q) usage_data.

(** [m] is the maximum single-record seconds value of the report. *)
Definition max_seconds_in_report (m : Q) (usage_data : list usage_row) : Prop :=
  Exists (fun rec => snd rec == m) usage_data /\
  Forall (fun rec => (snd rec <= m)%Q) usage_data.

(** What one line of the chart holds for the record [rec], given the
    maximum [m] and the total [t] that [create_bar_chart] computed. *)
Definition row_for (m t : Q) (w : Z) (rec : usage_row) (row : chart_row)
  : Prop :=
  row_bar_length row = py_trunc (snd rec / m * inject_Z w) /\
  row_bar row = str_repeat full_block (row_bar_length row)
                ++ str_repeat light_shade (w - row_bar_length row) /\
  row_percentage row = (snd rec / t * 100)%Q /\
  row_time row = format_time (snd rec).

(** The sum of the 24 bucket values. *)
Definition bucket_total (hourly_usage : gmap nat Q) : Q :=
  py_sum (map (fun hour => default 0%Q (hourly_usage !! hour)) (seq 0 24)).

(** The interval [r] starts in hour [h] of the local clock. *)
Definition starts_in (fromtimestamp_hour : Q -> result nat) (h : nat)
    (r : interval) : bool :=
  match fromtimestamp_hour (iv_start_time r) with
  | Ok h' => Nat.eqb h' h
  | Raise _ => false
  end.

(** The ranks [1, 2, ...] paired with the records, as [enumerate(_, 1)]. *)
Definition enumerate1 (usage_data : list usage_row) : list (Z * usage_row) :=
  zip (seqZ 1 (Z.of_nat (length usage_data))) usage_data.

(* ================================================================== *)
(** ** Sample data *)
(* ================================================================== *)

(** A report of two records. *)
Definition sample_usage : list usage_row :=
  [("com.apple.Safari", 100%Q); ("com.apple.finder", 99%Q)].

(** A report of 25 records, in descending order of seconds. *)
Definition sample_usage_25 : list usage_row :=
  map (fun k => ("app" ++ str_of_Z k, inject_Z (6100 - 100 * k))) (seqZ 1 25).

(** The rows of a database that holds [sample_usage_25]. *)
Definition sample_get_usage_data (days : Z) : M (list usage_row) :=
  mret sample_usage_25.

(** A local clock set to UTC. *)
Definition utc_hour (t : Q) : result nat :=
  Ok (Z.to_nat ((Qfloor t / 3600) mod 24)).

(** Three intervals; the first starts at 00:58:20 and ends at 01:01:40. *)
Definition sample_intervals : list interval :=
  [mk_interval "com.apple.Safari" 3500 3700 200;
   mk_interval "com.apple.finder" 7300 7400 100;
   mk_interval "com.apple.Safari" 7400 7500 100].

(* ================================================================== *)
(** ** [ScreenTimeChecker.get_app_name] *)
(* ================================================================== *)

Module Names.

(** What [get_app_name] asks of the operating system: [os.path.exists],
    and the [mdls] subprocess with its return code and standard output,
    [None] when [run] raises (a timeout, a missing program). *)
Record os_env : Type := mk_os_env {
  path_exists : string -> bool;
  run_mdls : string -> option (Z * string)
}.

(** The [common_apps] dict literal. *)
Definition common_apps : gmap string string :=
  list_to_map
    [("com.apple.Safari", "Safari");
     ("com.microsoft.VSCode", "Visual Studio Code");
     ("com.apple.finder", "Finder");
     ("com.apple.systempreferences", "系统设置");
     ("com.tencent.xinWeChat", "微信");
     ("com.apple.mail", "邮件");
     ("com.apple.music", "音乐");
     ("com.apple.tv", "TV");
     ("com.apple.photos", "照片");
     ("com.apple.notes", "备忘录");
     ("com.apple.reminders", "提醒事项");
     ("com.apple.calendar", "日历");
     ("com.apple.facetime", "FaceTime");
     ("com.apple.messages", "信息")].

(** [s.split(sep)] for a one-character separator. *)
Fixpoint split_on (sep : ascii) (s : string) : list string :=
  match s with
  | EmptyString => [EmptyString]
  | String c s' =>
      if Ascii.eqb c sep then EmptyString :: split_on sep s'
      else match split_on sep s' with
           | piece :: pieces => String c piece :: pieces
           | [] => [String c EmptyString]
           end
  end.

(** [s.title()], on the ASCII letters: a letter that follows a letter is
    lowered, any other letter is raised. *)
Definition is_upper (c : ascii) : bool :=
  let n := N_of_ascii c in (65 <=? n)%N && (n <=? 90)%N.

Definition is_lower (c : ascii) : bool :=
  let n := N_of_ascii c in (97 <=? n)%N && (n <=? 122)%N.

Definition upper_ascii (c : ascii) : ascii :=
  if is_lower c then ascii_of_N (N_of_ascii c - 32) else c.

Fixpoint title_from (previous_is_cased : bool) (s : string) : string :=
  match s with
  | EmptyString => EmptyString
  | String c s' =>
      if is_lower c then
        String (if previous_is_cased then c else upper_ascii c)
               (title_from true s')
      else if is_upper c then
        String (if previous_is_cased then lower_ascii c else c)
               (title_from true s')
      else String c (title_from false s')
  end.

Definition title (s : string) : string := title_from false s.

(** [s.strip()], on the ASCII white space. *)
Definition is_str_space (c : ascii) : bool :=
  let n := N_of_ascii c in
  ((9 <=? n)%N && (n <=? 13)%N) || ((28 <=? n)%N && (n <=? 32)%N).

Fixpoint lstrip_str (l : list ascii) : list ascii :=
  match l with
  | c :: l' => if is_str_space c then lstrip_str l' else l
  | [] => []
  end.

Definition str_strip (s : string) : string :=
  string_of_list_ascii
    (rev (lstrip_str (rev (lstrip_str (list_ascii_of_string s))))).

(** One pass of the body of [for app_path in app_paths]: the display name
    that makes the loop return, if any. *)
Definition probe (env : os_env) (app_path : string) : option string :=
  if path_exists env app_path then
    match run_mdls env app_path with
    | Some (returncode, stdout) =>
        if (returncode =? 0)%Z
           && negb (String.eqb (str_strip stdout) EmptyString) then
          let display_name := str_strip stdout in
          if negb (String.eqb display_name "(null)") then Some display_name
          else None
        else None
    | None => None
    end
  else None.

Fixpoint probe_all (env : os_env) (app_paths : list string) : option string :=
  match app_paths with
  | [] => None
  | app_path :: app_paths' =>
      match probe env app_path with
      | Some display_name => Some display_name
      | None => probe_all env app_paths'
      end
  end.

Definition app_paths (app_name : string) : list string :=
  ["/Applications/" ++ app_name ++ ".app";
   "/System/Applications/" ++ app_name ++ ".app";
   "/Applications/Utilities/" ++ app_name ++ ".app"].

(** [get_app_name]: the name, and [self.app_names] after the call. *)
Definition get_app_name (env : os_env) (app_names : gmap string string)
    (bundle_id : string) : string * gmap string string :=
  match app_names !! bundle_id with
  | Some name => (name, app_names)
  | None =>
      match common_apps !! bundle_id with
      | Some name => (name, <[bundle_id := name]> app_names)
      | None =>
          let app_name := List.last (split_on "." bundle_id) EmptyString in
          match probe_all env (app_paths app_name) with
          | Some display_name =>
              (display_name, <[bundle_id := display_name]> app_names)
          | None =>
              (title app_name, <[bundle_id := title app_name]> app_names)
          end
      end
  end.

End Names.

(* ================================================================== *)
(** ** The queries of [get_usage_data] and [get_hourly_usage] *)
(* ================================================================== *)

Module Store.

(** A row of the table [ZOBJECT], with the columns the two queries read;
    [None] is SQL's [NULL]. *)
Record zobject : Type := mk_zobject {
  ZSTREAMNAME : option string;
  ZSTARTDATE : option Q;
  ZENDDATE : option Q;
  ZVALUESTRING : option string
}.

(** [WHERE ZSTREAMNAME IN ('/app/usage','/app/inFocus') AND ZSTARTDATE > ?
    AND ZVALUESTRING IS NOT NULL AND ZVALUESTRING != '']: a row passes when
    the condition is true, not when it is [NULL]. *)
Definition in_window (since : Z) (r : zobject) : bool :=
  match ZSTREAMNAME r, ZSTARTDATE r, ZVALUESTRING r with
  | Some stream, Some start, Some value =>
      (String.eqb stream "/app/usage" || String.eqb stream "/app/inFocus")
      && Qltb (inject_Z since) start
      && negb (String.eqb value EmptyString)
  | _, _, _ => false
  end.

(** [ZENDDATE - ZSTARTDATE] *)
Definition elapsed (r : zobject) : option Q :=
  match ZENDDATE r, ZSTARTDATE r with
  | Some e, Some s => Some (e - s)%Q
  | _, _ => None
  end.

(** One step of [SUM]: a [NULL] term is skipped, and the sum of no term is
    [NULL]. *)
Definition sum_step (acc term : option Q) : option Q :=
  match acc, term with
  | Some a, Some t => Some (a + t)%Q
  | Some a, None => Some a
  | None, _ => term
  end.

(** [GROUP BY bundle_id] with [SUM(ZENDDATE - ZSTARTDATE)] per group. *)
Definition add_to_group (groups : gmap string (option Q)) (r : zobject)
  : gmap string (option Q) :=
  match ZVALUESTRING r with
  | Some bundle_id =>
      <[bundle_id := sum_step (default None (groups !! bundle_id)) (elapsed r)]>
        groups
  | None => groups
  end.

Definition group_sums (rows : list zobject) : gmap string (option Q) :=
  foldl add_to_group ∅ rows.

(** [HAVING seconds > 60] *)
Definition having (group : string * option Q) : option usage_row :=
  match group.2 with
  | Some seconds =>
      if Qltb 60 seconds then Some (group.1, seconds) else None
  | None => None
  end.

(** [ORDER BY seconds DESC] *)
Definition seconds_desc (a b : usage_row) : Prop := (b.2 <= a.2)%Q.

#[global] Instance seconds_desc_dec : RelDecision seconds_desc.
Proof.
  intros a b. unfold seconds_desc.
  destruct (Qle_bool b.2 a.2) eqn:E.
  - left. now apply Qle_bool_iff.
  - right. intros H. apply Qle_bool_iff in H. congruence.
Defined.

(** The rows the aggregate query of [get_usage_data] returns for the
    window that starts at [since]. *)
Definition usage_query (since : Z) (table : list zobject) : list usage_row :=
  merge_sort seconds_desc
    (omap having
       (map_to_list (group_sums (List.filter (in_window since) table)))).

(** [... AND ZOBJECT.ZENDDATE - ZOBJECT.ZSTARTDATE > 60] *)
Definition long_enough (r : zobject) : bool :=
  match elapsed r with
  | Some d => Qltb 60 d
  | None => false
  end.

(** [ORDER BY ZSTARTDATE] *)
Definition start_asc (a b : zobject) : Prop :=
  match ZSTARTDATE a, ZSTARTDATE b with
  | Some s, Some t => (s <= t)%Q
  | None, _ => True
  | Some _, None => False
  end.

#[global] Instance start_asc_dec : RelDecision start_asc.
Proof.
  intros a b. unfold start_asc.
  destruct (ZSTARTDATE a) as [s|]; [| left; exact I].
  destruct (ZSTARTDATE b) as [t|]; [| right; intros []].
  destruct (Qle_bool s t) eqn:E.
  - left. now apply Qle_bool_iff.
  - right. intros H. apply Qle_bool_iff in H. congruence.
Defined.

(** The selected columns of the interval query:
    [bundle_id, ZSTARTDATE + 978307200, ZENDDATE + 978307200,
     ZENDDATE - ZSTARTDATE]. *)
Definition to_interval (r : zobject) : option interval :=
  match ZVALUESTRING r, ZSTARTDATE r, ZENDDATE r with
  | Some bundle_id, Some s, Some e =>
      Some (mk_interval bundle_id (s + 978307200) (e + 978307200) (e - s))
  | _, _, _ => None
  end.

(** The rows the interval query of [get_hourly_usage] returns. *)
Definition interval_query (since : Z) (table : list zobject) : list interval :=
  omap to_interval
    (merge_sort start_asc
       (List.filter (fun r => in_window since r && long_enough r) table)).

End Store.

(* ================================================================== *)
(** ** [check_database], [get_usage_data] and [export_to_json] *)
(* ================================================================== *)

Module Program.

Import Store.

(** What the program finds at [self.db_path]. *)
Inductive database : Type :=
| Missing
| Unavailable (e : string)
| Failing (e : string)
| Table (rows : list zobject).

(** The world outside the program: the database file, the answers of the
    operating system about applications, the start of the window of [days]
    days in the database's epoch ([inl e] when computing it raises [e]),
    and the clock as [isoformat()] and as [strftime("%Y%m%d_%H%M%S")]
    print it. Opening the export file for writing is taken to succeed. *)
Record world : Type := mk_world {
  db_path : string;
  db : database;
  os : Names.os_env;
  since_of : Z -> string + Z;
  now_iso : string;
  now_stamp : string
}.

Definition check_database (w : world) : M bool :=
  match db w with
  | Missing =>
      print ("❌ 找不到数据库文件：" ++ db_path w);;
      print "请确保您在 macOS 上运行此脚本";;
      mret false
  | Unavailable e =>
      print ("❌ 无法访问数据库：" ++ e);;
      print (newline ++ "💡 解决方法：");;
      print "1. 打开 系统设置 → 隐私与安全性 → 完全磁盘访问";;
      print "2. 点击 + 号添加 Terminal（或您运行此脚本的应用）";;
      print "3. 重新运行脚本";;
      mret false
  | Failing _ | Table _ => mret true
  end.

Definition get_usage_data (w : world) (days : Z) : M (list usage_row) :=
  ok ← check_database w;
  if negb ok then mret []
  else
    match since_of w days, db w with
    | inr since, Table rows => mret (usage_query since rows)
    | inl e, _ | inr _, Failing e =>
        print ("❌ 查询数据库时出错：" ++ e);; mret []
    | inr _, _ => mret []
    end.

(** [self.get_app_name] for a process whose operating system answers do
    not change: the name the first call for [bundle_id] returns. *)
Definition resolve (w : world) (bundle_id : string) : string :=
  (Names.get_app_name (os w) ∅ bundle_id).1.

(** A JSON value, as [json.dump] receives it. *)
#[warnings="-register-all"] Inductive json : Type :=
| JString (s : string)
| JInt (n : Z)
| JFloat (x : Q)
| JArray (items : list json)
| JObject (fields : list (string * json)).

(** The dict appended to [export_data["apps"]] for one row. *)
Definition app_entry (w : world) (rec : usage_row) : json :=
  let '(bundle_id, seconds) := rec in
  JObject [("bundle_id", JString bundle_id);
           ("app_name", JString (resolve w bundle_id));
           ("usage_seconds", JFloat seconds);
           ("usage_formatted", JString (format_time seconds))].

Definition export_data (w : world) (days : Z) (usage_data : list usage_row)
  : json :=
  JObject [("export_time", JString (now_iso w));
           ("period_days", JInt days);
           ("total_apps", JInt (Z.of_nat (length usage_data)));
           ("apps", JArray (map (app_entry w) usage_data))].

(** [export_to_json]: what it prints, and the file it writes, as the pair
    of the file name and the document, if it writes one. *)
Definition export_to_json (w : world) (days : Z) (filename : option string)
  : M (option (string * json)) :=
  usage_data ← get_usage_data w days;
  match usage_data with
  | [] => print "😔 没有找到可导出的数据";; mret None
  | _ =>
      let filename :=
        match filename with
        | Some name => name
        | None =>
            "screen_time_" ++ str_of_Z days ++ "days_" ++ now_stamp w ++ ".json"
        end in
      print ("✅ 数据已导出到：" ++ filename);;
      mret (Some (filename, export_data w days usage_data))
  end.

(** The program: [main] over the methods of one [ScreenTimeChecker]. *)
Definition screen_time_checker (w : world) (argv : list string) : M unit :=
  main (resolve w) (get_usage_data w)
       (fun days => export_to_json w days None;; mret tt) argv.

End Program.

(* ================================================================== *)
(** ** Vocabulary of the further properties *)
(* ================================================================== *)

(** Every name in the cache is the name the operating system [env] gives. *)
Definition coherent (env : Names.os_env) (app_names : gmap string string)
  : Prop :=
  forall bundle_id name,
    app_names !! bundle_id = Some name ->
    (Names.get_app_name env ∅ bundle_id).1 = name.

(** The probe of [app_path] does not end the loop of [get_app_name]: the
    path is absent, or [run] raises, or [mdls] exits with a non-zero code,
    or prints only white space, or prints [(null)]. *)
Definition probe_fails (env : Names.os_env) (app_path : string) : Prop :=
  Names.path_exists env app_path = false \/
  Names.run_mdls env app_path = None \/
  exists returncode stdout,
    Names.run_mdls env app_path = Some (returncode, stdout) /\
    (returncode <> 0%Z \/
     Names.str_strip stdout = EmptyString \/
     Names.str_strip stdout = "(null)").

(** The sum [SUM(ZENDDATE - ZSTARTDATE)] of the rows of [table] that pass
    the [WHERE] clause and belong to [bundle_id], with [NULL] terms left
    out. *)
Definition seconds_of (since : Z) (table : list Store.zobject)
    (bundle_id : string) : Q :=
  py_sum
    (omap Store.elapsed
       (List.filter
          (fun r => Store.in_window since r
                    && bool_decide (Store.ZVALUESTRING r = Some bundle_id))
          table)).

(** Reading an exported document back: the [(bundle_id, usage_seconds)]
    pairs of its [apps]. *)
Definition field (name : string) (fields : list (string * Program.json))
  : option Program.json :=
  snd <$> List.find (fun kv => String.eqb kv.1 name) fields.

Definition read_app (entry : Program.json) : option usage_row :=
  match entry with
  | Program.JObject fields =>
      match field "bundle_id" fields, field "usage_seconds" fields with
      | Some (Program.JString bundle_id), Some (Program.JFloat seconds) =>
          Some (bundle_id, seconds)
      | _, _ => None
      end
  | _ => None
  end.

Definition read_apps (document : Program.json) : option (list usage_row) :=
  match document with
  | Program.JObject fields =>
      match field "apps" fields with
      | Some (Program.JArray items) => mapM read_app items
      | _ => None
      end
  | _ => None
  end.

(* ================================================================== *)
(** ** Further sample data *)
(* ================================================================== *)

(** An operating system on which no application path exists. *)
Definition offline_env : Names.os_env :=
  Names.mk_os_env (fun _ => false) (fun _ => None).

(** An operating system on which [mdls] names every application. *)
Definition naming_env : Names.os_env :=
  Names.mk_os_env (fun _ => true) (fun _ => Some (0%Z, "Browser")).

(** The rows of a database that holds [sample_usage]. *)
Definition short_get_usage_data (days : Z) : M (list usage_row) :=
  mret sample_usage.

(** A report whose only record has zero seconds. *)
Definition zero_usage : list usage_row := [("com.apple.Safari", 0%Q)].

(** A local clock that cannot convert times before 1970. *)
Definition clock_from_1970 (t : Q) : result nat :=
  if Qltb t 0 then Raise OverflowError else utc_hour t.

(** A table of four rows: two of one application in the window, one of
    another application that is too short, and one before the window. *)
Definition sample_table : list Store.zobject :=
  [Store.mk_zobject (Some "/app/usage") (Some 1000%Q) (Some 1100%Q)
     (Some "com.apple.Safari");
   Store.mk_zobject (Some "/app/inFocus") (Some 2000%Q) (Some 2300%Q)
     (Some "com.apple.Safari");
   Store.mk_zobject (Some "/app/usage") (Some 3000%Q) (Some 3030%Q)
     (Some "com.apple.finder");
   Store.mk_zobject (Some "/app/usage") (Some 10%Q) (Some 900%Q)
     (Some "com.apple.mail")].

(** A world with [sample_table], and the same world without a database. *)
Definition sample_world : Program.world :=
  Program.mk_world "~/Library/Application Support/Knowledge/knowledgeC.db"
    (Program.Table sample_table) offline_env (fun days => inr 500%Z)
    "2026-11-04T12:00:00" "20261104_120000".

Definition missing_world : Program.world :=
  Program.mk_world "~/Library/Application Support/Knowledge/knowledgeC.db"
    Program.Missing offline_env (fun days => inr 500%Z)
    "2026-11-04T12:00:00" "20261104_120000".

(* ================================================================== *)
(** ** Properties *)
(* ================================================================== *)

(** *** The functions on concrete inputs *)

Example py_int_examples :
  py_int " +1_000 " = Ok 1000%Z /\ py_int "-7" = Ok (-7)%Z /\
  py_int "007" = Ok 7%Z /\ py_int "abc" = Raise ValueError /\
  py_int "1__0" = Raise ValueError /\ py_int "- 5" = Raise ValueError.
Proof. vm_compute. repeat split. Qed.

Example format_time_examples :
  format_time 3630 = "1.0小时" /\ format_time (119 # 2) = "60秒" /\
  format_time 99 = "1.6分钟" /\ format_time 86400 = "24.0小时".
Proof. vm_compute. repeat split. Qed.

Example create_bar_chart_sample :
  create_bar_chart (fun bundle_id => bundle_id) sample_usage 30
  = Ok ["com.apple.Sa... ██████████████████████████████ 50.3% (1.7分钟)";
        "com.apple.fi... █████████████████████████████░ 49.7% (1.6分钟)"].
Proof. vm_compute. reflexivity. Qed.

Example create_hourly_chart_sample :
  create_hourly_chart (get_hourly_usage utc_hour sample_intervals) 8
  = Ok ["█ █                     ";
        "█ █                     ";
        "█ █                     ";
        "█ █                     ";
        "█ █                     ";
        "█ █                     ";
        "█ █                     ";
        "█ █                     ";
        "------------------------";
        " 0  3  6  9 12 15 18 21 "].
Proof. vm_compute. reflexivity. Qed.

Example print_usage_report_sample :
  print_usage_report (fun bundle_id => bundle_id)
    (fun _ => mret sample_usage) 3 false false []
  = (Ok tt,
     [(newline ++ "📱 过去 3 天 应用使用时长报告")%string;
      "==================================================";
      "📊 总使用时长：3.3分钟";
      "--------------------------------------------------";
      " 1. com.apple.Safari                 1.7分钟 (50.3%)";
      " 2. com.apple.finder                 1.6分钟 (49.7%)"]).
Proof. vm_compute. reflexivity. Qed.

(** *** Numbers and strings *)

Lemma Qltb_lt (a b : Q) : Qltb a b = true <-> (a < b)%Q.
Proof.
  unfold Qltb. rewrite negb_true_iff.
  destruct (Qle_bool b a) eqn:E.
  - apply Qle_bool_iff in E. split; [discriminate | intros H; lra].
  - split; [intros _ | reflexivity].
    apply Qnot_le_lt. intros H. apply Qle_bool_iff in H. congruence.
Qed.

Lemma Qltb_ge (a b : Q) : Qltb a b = false <-> (b <= a)%Q.
Proof.
  unfold Qltb. rewrite negb_false_iff. apply Qle_bool_iff.
Qed.

Lemma Qfloor_bounds (x : Q) (n : Z) :
  (inject_Z n <= x)%Q -> (x < inject_Z n + 1)%Q -> Qfloor x = n.
Proof.
  intros Hlo Hhi.
  pose proof (Qfloor_le x) as H1. pose proof (Qlt_floor x) as H2.
  rewrite inject_Z_plus in H2. change (inject_Z 1) with 1%Q in H2.
  assert (inject_Z (Qfloor x) < inject_Z (n + 1))%Q as H3
    by (rewrite inject_Z_plus; change (inject_Z 1) with 1%Q; lra).
  assert (inject_Z n < inject_Z (Qfloor x + 1))%Q as H4
    by (rewrite inject_Z_plus; change (inject_Z 1) with 1%Q; lra).
  rewrite <- Zlt_Qlt in H3, H4. lia.
Qed.

Lemma round_half_even_near (x : Q) :
  (Qabs (x - inject_Z (round_half_even x)) <= 1 # 2)%Q.
Proof.
  unfold round_half_even.
  pose proof (Qfloor_le x) as H1. pose proof (Qlt_floor x) as H2.
  rewrite inject_Z_plus in H2. change (inject_Z 1) with 1%Q in H2.
  apply Qabs_Qle_condition.
  destruct (Qcompare_spec (x - inject_Z (Qfloor x)) (1 # 2)) as [E|E|E].
  - destruct (Z.even (Qfloor x)); [lra |].
    rewrite inject_Z_plus. change (inject_Z 1) with 1%Q. lra.
  - lra.
  - rewrite inject_Z_plus. change (inject_Z 1) with 1%Q. lra.
Qed.

Lemma round_half_even_Z (z : Z) : round_half_even (inject_Z z) = z.
Proof.
  unfold round_half_even. rewrite Qfloor_Z.
  destruct (Qcompare_spec (inject_Z z - inject_Z z) (1 # 2)) as [E|E|E];
    [lra | reflexivity | lra].
Qed.

Lemma round_half_even_comp (x y : Q) :
  x == y -> round_half_even x = round_half_even y.
Proof.
  intros H. unfold round_half_even.
  rewrite (Qfloor_comp _ _ H).
  assert (x - inject_Z (Qfloor y) == y - inject_Z (Qfloor y)) as E by (rewrite H; reflexivity).
  rewrite (Qcompare_comp _ _ E _ _ (Qeq_refl (1 # 2))). reflexivity.
Qed.

Lemma fmt_0f_nonneg (x : Q) :
  (0 <= x)%Q -> fmt_0f x = str_of_Z (round_half_even x).
Proof.
  intros H. unfold fmt_0f.
  destruct (Qltb x 0) eqn:E; [apply Qltb_lt in E; lra | reflexivity].
Qed.

Lemma fmt_1f_nonneg (x : Q) :
  (0 <= x)%Q -> fmt_1f x = fmt_tenths (round_half_even (x * 10)).
Proof.
  intros H. unfold fmt_1f.
  destruct (Qltb x 0) eqn:E; [apply Qltb_lt in E; lra | reflexivity].
Qed.

Lemma str_app_assoc (a b c : string) : (a ++ b) ++ c = a ++ (b ++ c).
Proof.
  induction a as [|ch a' IH]; [reflexivity |].
  change (String ch ((a' ++ b) ++ c) = String ch (a' ++ (b ++ c))).
  now rewrite IH.
Qed.

Lemma floordiv_bounds (x : Q) (d : Z) :
  (0 < d)%Z ->
  (inject_Z d * inject_Z (Qfloor (x / inject_Z d)) <= x)%Q /\
  (x < inject_Z d * inject_Z (Qfloor (x / inject_Z d)) + inject_Z d)%Q.
Proof.
  intros Hd.
  assert (0 < inject_Z d)%Q as Hd' by (change 0%Q with (inject_Z 0); now rewrite <- Zlt_Qlt).
  pose proof (Qfloor_le (x / inject_Z d)) as H1.
  pose proof (Qlt_floor (x / inject_Z d)) as H2.
  rewrite inject_Z_plus in H2. change (inject_Z 1) with 1%Q in H2.
  set (f := inject_Z (Qfloor (x / inject_Z d))) in *.
  split.
  - apply (Qmult_le_l _ _ (/ inject_Z d)); [now apply Qinv_lt_0_compat |].
    rewrite Qmult_assoc, (Qmult_comm (/ _)), Qmult_inv_r, Qmult_1_l by lra.
    rewrite Qmult_comm. exact H1.
  - apply (Qmult_lt_l _ _ (/ inject_Z d)); [now apply Qinv_lt_0_compat |].
    rewrite (Qmult_comm _ x).
    assert (/ inject_Z d * (inject_Z d * f + inject_Z d) == f + 1) as E by (field; lra).
    rewrite E. exact H2.
Qed.


(** C10: below 60 the seconds are rounded to the nearest whole number
    before display, so every input from 59.5 and below 60 is rendered as
    60 seconds although it is under the threshold of the minutes form. *)
Theorem format_time_rounds_up_to_60 (seconds : Q) :
  (119 # 2 <= seconds)%Q -> (seconds < 60)%Q -> format_time seconds = "60秒".
Proof.
  intros Hlo Hhi. unfold format_time.
  rewrite (proj2 (Qltb_lt _ _) Hhi).
  rewrite fmt_0f_nonneg by lra.
  unfold round_half_even.
  assert (Qfloor seconds = 59%Z) as ->.
  { apply Qfloor_bounds; change (inject_Z 59) with 59%Q; lra. }
  change (inject_Z 59) with 59%Q.
  destruct (Qcompare_spec (seconds - 59) (1 # 2)) as [E|E|E];
    [reflexivity | lra | reflexivity].
Qed.

(** *** Sums and maxima *)

Lemma py_sum_from (xs : list Q) (a : Q) : fold_left Qplus xs a == a + py_sum xs.
Proof.
  unfold py_sum. revert a.
  induction xs as [|x xs IH]; intros a; simpl; [lra |].
  rewrite IH, (IH (0 + x)%Q). lra.
Qed.

Lemma py_sum_cons (x : Q) (xs : list Q) : py_sum (x :: xs) == x + py_sum xs.
Proof. unfold py_sum at 1. simpl. rewrite py_sum_from. lra. Qed.

Lemma py_sum_nonneg (xs : list Q) :
  Forall (fun x => (0 <= x)%Q) xs -> (0 <= py_sum xs)%Q.
Proof.
  induction 1 as [|x xs Hx _ IH]; [unfold py_sum; simpl; lra |].
  rewrite py_sum_cons. lra.
Qed.

Lemma py_sum_ge (xs : list Q) (x : Q) :
  Forall (fun x => (0 <= x)%Q) xs -> In x xs -> (x <= py_sum xs)%Q.
Proof.
  induction 1 as [|y xs Hy Hxs IH]; intros Hin; [destruct Hin |].
  rewrite py_sum_cons. pose proof (py_sum_nonneg xs Hxs).
  destruct Hin as [-> | Hin]; [lra | specialize (IH Hin); lra].
Qed.

Lemma py_max_from_spec (xs : list Q) (m : Q) :
  (py_max_from m xs = m \/ In (py_max_from m xs) xs) /\
  (m <= py_max_from m xs)%Q /\
  Forall (fun x => (x <= py_max_from m xs)%Q) xs.
Proof.
  revert m. induction xs as [|x xs IH]; intros m; simpl.
  - repeat split; [now left | lra | constructor].
  - destruct (IH (if Qltb m x then x else m)) as (Hin & Hle & Hall).
    destruct (Qltb m x) eqn:E.
    + apply Qltb_lt in E. repeat split.
      * right. destruct Hin as [-> | Hin]; [now left | now right].
      * lra.
      * constructor; assumption.
    + apply Qltb_ge in E. repeat split.
      * destruct Hin as [-> | Hin]; [now left | right; now right].
      * assumption.
      * constructor; [lra | assumption].
Qed.

Lemma py_max_report (usage_data : list usage_row) (m : Q) :
  max_seconds_in_report m usage_data ->
  exists m', py_max (map snd usage_data) = Ok m' /\ m' == m.
Proof.
  intros [Hex Hall].
  destruct usage_data as [|rec usage_data]; [inversion Hex |].
  simpl. eexists. split; [reflexivity |].
  destruct (py_max_from_spec (map snd usage_data) (snd rec))
    as (Hin & Hle & Hmax).
  set (m' := py_max_from (snd rec) (map snd usage_data)) in *.
  apply Qle_antisym.
  - rewrite List.Forall_forall in Hall.
    destruct Hin as [-> | Hin]; [apply Hall; now left |].
    apply in_map_iff in Hin as (rec' & <- & Hin').
    apply Hall. now right.
  - rewrite List.Forall_forall in Hmax.
    apply List.Exists_exists in Hex as (rec' & Hin' & Heq).
    rewrite <- Heq.
    destruct Hin' as [<- | Hin']; [assumption |].
    apply Hmax. now apply in_map.
Qed.

(** *** Exceptions *)

Lemma py_div_Ok (a b : Q) : ~ b == 0 -> py_div a b = Ok (a / b)%Q.
Proof.
  intros Hb. unfold py_div.
  destruct (Qeq_bool b 0) eqn:E; [| reflexivity].
  apply Qeq_bool_iff in E. contradiction.
Qed.

Lemma percentage_of_Ok (seconds total : Q) :
  ~ total == 0 -> percentage_of seconds total = Ok (seconds / total * 100)%Q.
Proof. intros H. unfold percentage_of. now rewrite py_div_Ok. Qed.

Lemma rmap_Ok {A B} (f : A -> result B) (xs : list A) :
  (forall x, In x xs -> exists y, f x = Ok y) ->
  exists ys, rmap f xs = Ok ys /\ Forall2 (fun x y => f x = Ok y) xs ys.
Proof.
  induction xs as [|x xs IH]; intros H; simpl.
  - exists []. split; [reflexivity | constructor].
  - destruct (H x (or_introl eq_refl)) as [y Hy].
    destruct IH as (ys & Hys & Hall); [intros; apply H; now right |].
    exists (y :: ys). rewrite Hy. simpl. rewrite Hys. simpl.
    split; [reflexivity | now constructor].
Qed.

Lemma py_sum_pos_exists (xs : list Q) :
  (0 < py_sum xs)%Q -> exists x, In x xs /\ (0 < x)%Q.
Proof.
  induction xs as [|x xs IH]; [unfold py_sum; simpl; lra |].
  rewrite py_sum_cons. intros H.
  destruct (Qlt_le_dec 0 x) as [Hx | Hx].
  - exists x. split; [now left | assumption].
  - destruct IH as (y & Hin & Hy); [lra |].
    exists y. split; [now right | assumption].
Qed.

Lemma py_trunc_nonneg (x : Q) : (0 <= x)%Q -> py_trunc x = Qfloor x.
Proof.
  intros H. unfold py_trunc.
  destruct (Qltb x 0) eqn:E; [apply Qltb_lt in E; lra | reflexivity].
Qed.

Lemma bar_chart_row_Ok get_app_name usage_data (m : Q) (w : Z) rec :
  ~ m == 0 -> ~ total_of usage_data == 0 ->
  exists row,
    bar_chart_row get_app_name usage_data m w rec = Ok row /\
    row_for m (total_of usage_data) w rec row.
Proof.
  intros Hm Ht. destruct rec as [bundle_id seconds].
  unfold bar_chart_row.
  rewrite py_div_Ok by assumption. simpl.
  rewrite percentage_of_Ok by assumption. simpl.
  eexists. split; [reflexivity |]. repeat split.
Qed.

Lemma bar_chart_rows_Ok get_app_name usage_data (m : Q) (w : Z) :
  py_max (map snd usage_data) = Ok m ->
  ~ m == 0 -> ~ total_of usage_data == 0 ->
  exists rows,
    bar_chart_rows get_app_name usage_data w = Ok rows /\
    Forall2 (row_for m (total_of usage_data) w) usage_data rows.
Proof.
  intros Hmax Hm Ht.
  destruct (rmap_Ok (bar_chart_row get_app_name usage_data m w) usage_data)
    as (rows & Hrows & Hall).
  { intros rec _.
    destruct (bar_chart_row_Ok get_app_name usage_data m w rec Hm Ht)
      as (row & Hrow & _).
    now exists row. }
  exists rows. split.
  - unfold bar_chart_rows.
    destruct usage_data as [|rec usage_data]; [discriminate |].
    rewrite Hmax. exact Hrows.
  - eapply Forall2_impl; [exact Hall |].
    intros rec row Hrow. simpl in Hrow.
    destruct (bar_chart_row_Ok get_app_name usage_data m w rec Hm Ht)
      as (row' & Hrow' & Hfor).
    congruence.
Qed.

Lemma total_ge_max (usage_data : list usage_row) (m : Q) :
  usage_records usage_data -> max_seconds_in_report m usage_data ->
  (m <= total_of usage_data)%Q.
Proof.
  intros Hrec [Hex _].
  apply List.Exists_exists in Hex as (rec & Hin & Heq).
  rewrite <- Heq. apply py_sum_ge.
  - unfold usage_records in Hrec. rewrite List.Forall_forall in Hrec.
    apply List.Forall_forall. intros x Hx.
    apply in_map_iff in Hx as (rec' & <- & Hin'). now apply Hrec.
  - now apply in_map.
Qed.

Lemma bar_chart_rows_of_max get_app_name usage_data (m : Q) (w : Z) :
  usage_records usage_data -> max_seconds_in_report m usage_data ->
  (0 < m)%Q ->
  exists m' rows,
    m' == m /\
    bar_chart_rows get_app_name usage_data w = Ok rows /\
    Forall2 (row_for m' (total_of usage_data) w) usage_data rows.
Proof.
  intros Hrec Hmax Hpos.
  destruct (py_max_report usage_data m Hmax) as (m' & Hm' & Heq).
  pose proof (total_ge_max usage_data m Hrec Hmax) as Hge.
  destruct (bar_chart_rows_Ok get_app_name usage_data m' w Hm')
    as (rows & Hrows & Hall).
  - rewrite Heq. lra.
  - lra.
  - now exists m', rows.
Qed.


Lemma lookup_map {A B} (f : A -> B) (l : list A) (i : nat) :
  map f l !! i = f <$> l !! i.
Proof.
  revert i. induction l as [|x l IH]; intros [|i]; simpl; auto.
Qed.


Lemma sum_of_shares (xs : list Q) (t : Q) :
  py_sum (map (fun x => x / t * 100)%Q xs) == py_sum xs / t * 100.
Proof.
  induction xs as [|x xs IH]; simpl.
  - unfold py_sum. simpl. unfold Qdiv. ring.
  - rewrite !py_sum_cons, IH. unfold Qdiv. ring.
Qed.

Lemma print_usage_report_empty get_app_name get_usage_data
    (days : Z) (debug visual : bool) (out out' : list string) :
  get_usage_data days out = (Ok [], out') ->
  print_usage_report get_app_name get_usage_data days debug visual out
  = (Ok tt, (out' ++ ["😔 没有找到使用数据"])%list).
Proof.
  intros H. unfold print_usage_report, mbind, M_bind. now rewrite H.
Qed.



(** *** The ranked list *)

Lemma report_line_Ok get_app_name (total : Q) (i : Z) (rec : usage_row) :
  ~ total == 0 -> exists line, report_line get_app_name total i rec = Ok line.
Proof.
  intros Ht. destruct rec as [bundle_id seconds]. unfold report_line.
  rewrite percentage_of_Ok by assumption. simpl. eexists. reflexivity.
Qed.

Lemma list_loop_spec get_app_name (len : Z) (total : Q) :
  ~ total == 0 ->
  forall (rest : list usage_row) (i : Z) (displayed : Q) (out : list string),
    (1 <= i <= 20)%Z ->
    let shown := take (Z.to_nat (21 - i)) rest in
    let displayed' := fold_left Qplus (map snd shown) displayed in
    exists lines,
      list_loop get_app_name len total i displayed rest out
      = (Ok displayed',
         (out ++ lines
          ++ (if (Z.to_nat (21 - i) <=? length rest)%nat && (0 <? len - 20)%Z
              then [more_line (len - 20) (total - displayed')]
              else []))%list) /\
      Forall2 (fun (ranked : Z * usage_row) line =>
                 report_line get_app_name total ranked.1 ranked.2 = Ok line)
              (zip (seqZ i (Z.of_nat (length shown))) shown) lines.
Proof.
  intros Ht rest.
  induction rest as [|rec rest IH]; intros i displayed out Hi shown displayed'.
  - exists []. subst shown displayed'. rewrite take_nil. simpl.
    replace (Z.to_nat (21 - i) <=? 0)%nat with false
      by (symmetry; apply Nat.leb_gt; lia).
    simpl. rewrite app_nil_r. split; [reflexivity | constructor].
  - destruct (report_line_Ok get_app_name total i rec Ht) as [line Hline].
    assert (Z.to_nat (21 - i) = S (Z.to_nat (21 - (i + 1)))) as Hn by lia.
    subst shown displayed'. rewrite Hn. simpl take. simpl map. simpl fold_left.
    simpl length.
    rewrite (seqZ_cons i) by lia. simpl zip.
    replace (Z.pred (Z.of_nat (S (length (take (Z.to_nat (21 - (i + 1))) rest)))))
      with (Z.of_nat (length (take (Z.to_nat (21 - (i + 1))) rest))) by lia.
    simpl list_loop. unfold mbind, M_bind, lift, print, mret, M_ret.
    rewrite Hline.
    destruct (20 <=? i)%Z eqn:E.
    + apply Z.leb_le in E. assert (i = 20)%Z as -> by lia.
      simpl Z.to_nat. rewrite take_0. simpl.
      exists [line]. split.
      * destruct (0 <? len - 20)%Z; simpl;
          [now rewrite <- app_assoc | reflexivity].
      * now repeat constructor.
    + apply Z.leb_gt in E.
      destruct (IH (i + 1)%Z (displayed + snd rec)%Q (out ++ [line])%list)
        as (lines & Hloop & Hall); [lia |].
      exists (line :: lines). split.
      * rewrite Hloop. rewrite <- app_assoc. simpl.
        replace (S (Z.to_nat (21 - (i + 1))) <=? S (length rest))%nat
          with (Z.to_nat (21 - (i + 1)) <=? length rest)%nat by reflexivity.
        reflexivity.
      * constructor; [exact Hline | exact Hall].
Qed.


(** *** Hourly buckets *)

Lemma zero_buckets_from (l : list nat) (m0 : gmap nat Q) (h : nat) :
  foldl (fun m i => <[i := 0%Q]> m) m0 l !! h
  = if decide (h ∈ l) then Some 0%Q else m0 !! h.
Proof.
  revert m0. induction l as [|k l IH]; intros m0; simpl.
  - destruct (decide (h ∈ [])) as [Hin | _]; [inversion Hin | reflexivity].
  - rewrite IH.
    destruct (decide (h ∈ l)) as [Hin | Hnin].
    + rewrite decide_True by (now right). reflexivity.
    + destruct (decide (k = h)) as [-> | Hne].
      * rewrite decide_True by left. apply lookup_insert_eq.
      * rewrite decide_False; [now apply lookup_insert_ne |].
        intros Hin. apply elem_of_cons in Hin as [-> | Hin]; contradiction.
Qed.

Lemma zero_buckets_lookup (h : nat) :
  zero_buckets !! h = if decide (h < 24)%nat then Some 0%Q else None.
Proof.
  unfold zero_buckets. rewrite zero_buckets_from, lookup_empty.
  destruct (decide (h ∈ seq 0 24)) as [Hin | Hnin];
    rewrite elem_of_seq in *; destruct (decide (h < 24)%nat); try reflexivity; lia.
Qed.

Lemma bucket_sum_insert (m : gmap nat Q) (h : nat) (v d : Q) (l : list nat) :
  m !! h = Some v -> NoDup l ->
  py_sum (map (fun k => default 0%Q (<[h := (v + d)%Q]> m !! k)) l)
  == py_sum (map (fun k => default 0%Q (m !! k)) l)
     + (if decide (h ∈ l) then d else 0).
Proof.
  intros Hm. induction 1 as [|k l Hk Hl IH]; simpl.
  - unfold py_sum. simpl. lra.
  - rewrite !py_sum_cons, IH.
    destruct (decide (k = h)) as [-> | Hne].
    + rewrite lookup_insert_eq, Hm. simpl.
      rewrite decide_False by assumption.
      rewrite decide_True by left. lra.
    + rewrite lookup_insert_ne by congruence.
      destruct (decide (h ∈ l)) as [Hin | Hnin].
      * rewrite decide_True by (now right). lra.
      * rewrite decide_False; [lra |].
        intros Hin. apply elem_of_cons in Hin as [-> | Hin]; contradiction.
Qed.

Lemma bucket_total_insert (m : gmap nat Q) (h : nat) (v d : Q) :
  m !! h = Some v -> (h < 24)%nat ->
  bucket_total (<[h := (v + d)%Q]> m) == bucket_total m + d.
Proof.
  intros Hm Hh. unfold bucket_total.
  rewrite (bucket_sum_insert m h v d (seq 0 24) Hm (NoDup_seq 0 24)).
  rewrite decide_True by (apply elem_of_seq; lia). reflexivity.
Qed.

Lemma add_interval_Ok (clock : Q -> result nat) (m : gmap nat Q)
    (r : interval) (h : nat) (v : Q) :
  clock (iv_start_time r) = Ok h -> m !! h = Some v ->
  add_interval clock m r = Ok (<[h := (v + iv_duration r)%Q]> m).
Proof. intros Hc Hv. unfold add_interval. rewrite Hc. simpl. now rewrite Hv. Qed.

Lemma rfold_add_interval (clock : Q -> result nat) (records : list interval) :
  Forall (fun r => exists h, clock (iv_start_time r) = Ok h /\ (h < 24)%nat)
         records ->
  forall m : gmap nat Q,
    (forall h, (h < 24)%nat -> is_Some (m !! h)) ->
    exists m',
      rfold (add_interval clock) m records = Ok m' /\
      dom m' = dom m /\
      (forall h v, m !! h = Some v ->
         exists v', m' !! h = Some v' /\
           v' == v + py_sum (map iv_duration
                               (List.filter (starts_in clock h) records))) /\
      bucket_total m' == bucket_total m + py_sum (map iv_duration records).
Proof.
  induction 1 as [|r records (h0 & Hclock & Hh0) _ IH]; intros m Hm.
  - exists m. simpl. unfold py_sum. simpl.
    repeat split; [| lra].
    intros h v Hv. exists v. split; [assumption | lra].
  - destruct (Hm h0 Hh0) as [v0 Hv0].
    set (m1 := <[h0 := (v0 + iv_duration r)%Q]> m).
    destruct (IH m1) as (m' & Hfold & Hdom & Hbucket & Htotal).
    { intros h Hh. subst m1.
      destruct (decide (h0 = h)) as [-> | Hne];
        [rewrite lookup_insert_eq; eauto
        | rewrite lookup_insert_ne by assumption; auto]. }
    exists m'. split; [| split; [| split]].
    + cbn [rfold]. rewrite (add_interval_Ok clock m r h0 v0 Hclock Hv0).
      exact Hfold.
    + rewrite Hdom. subst m1. apply dom_insert_lookup_L. eauto.
    + intros h v Hv. simpl. unfold starts_in at 1. rewrite Hclock.
      destruct (decide (h0 = h)) as [-> | Hne].
      * rewrite Nat.eqb_refl.
        destruct (Hbucket h (v0 + iv_duration r)%Q) as (v' & Hv' & Heq);
          [subst m1; apply lookup_insert_eq |].
        exists v'. split; [assumption |].
        simpl map. rewrite py_sum_cons, Heq.
        assert (v = v0) as -> by congruence. lra.
      * replace (h0 =? h)%nat with false
          by (symmetry; now apply Nat.eqb_neq).
        apply Hbucket. subst m1. now rewrite lookup_insert_ne.
    + rewrite Htotal. subst m1.
      rewrite bucket_total_insert by assumption.
      simpl map. rewrite py_sum_cons. lra.
Qed.


(** *** The hourly histogram *)

Lemma rmap_const {A B} (f : A -> result B) (c : B) (xs : list A) :
  (forall x, In x xs -> f x = Ok c) ->
  rmap f xs = Ok (replicate (length xs) c).
Proof.
  induction xs as [|x xs IH]; intros H; simpl; [reflexivity |].
  rewrite (H x (or_introl eq_refl)). simpl.
  rewrite IH by (intros; apply H; now right). reflexivity.
Qed.

Lemma py_trunc_zero (x : Q) : x == 0 -> py_trunc x = 0%Z.
Proof.
  intros H. rewrite py_trunc_nonneg by lra.
  rewrite (Qfloor_comp _ _ H). reflexivity.
Qed.

Lemma values_all_zero (hourly_usage : gmap nat Q) :
  (forall h v, hourly_usage !! h = Some v -> v == 0) ->
  forall v, In v (values hourly_usage) -> v == 0.
Proof.
  intros Hzero v Hin. unfold values in Hin.
  apply list_elem_of_In, list_elem_of_fmap in Hin as ([h v'] & -> & Hin).
  apply elem_of_map_to_list in Hin. eapply Hzero. exact Hin.
Qed.

Lemma chart_divisor_all_zero (hourly_usage : gmap nat Q) :
  (forall h v, hourly_usage !! h = Some v -> v == 0) ->
  chart_divisor hourly_usage = Ok 1%Q.
Proof.
  intros Hzero. unfold chart_divisor.
  pose proof (values_all_zero hourly_usage Hzero) as Hvs.
  destruct (values hourly_usage) as [|v vs]; [reflexivity |].
  simpl.
  destruct (py_max_from_spec vs v) as (Hin & _ & _).
  assert (py_max_from v vs == 0) as E.
  { apply Hvs. destruct Hin as [-> | Hin]; [now left | now right]. }
  apply Qeq_bool_iff in E. now rewrite E.
Qed.

Lemma chart_cell_zero (hourly_usage : gmap nat Q) (max_height level : Z)
    (hour : nat) :
  (forall h v, hourly_usage !! h = Some v -> v == 0) ->
  (1 <= level)%Z ->
  chart_cell hourly_usage 1 max_height level hour = Ok " ".
Proof.
  intros Hzero Hlevel. unfold chart_cell.
  assert (default 0%Q (hourly_usage !! hour) == 0) as E.
  { destruct (hourly_usage !! hour) as [v|] eqn:Hv; simpl;
      [eapply Hzero; exact Hv | reflexivity]. }
  rewrite py_div_Ok by (intros H; discriminate H). simpl.
  rewrite py_trunc_zero by (rewrite E; field).
  replace (level <=? 0)%Z with false by (symmetry; apply Z.leb_gt; lia).
  reflexivity.
Qed.

Lemma levels_positive (max_height level : Z) :
  In level (levels max_height) -> (1 <= level)%Z.
Proof.
  unfold levels. intros Hin.
  apply in_map_iff in Hin as (i & <- & Hi). apply in_seq in Hi. lia.
Qed.

(** C6: for a bucket mapping whose values are all zero, the histogram
    divides by 1, raises no exception, and is the chart whose level rows
    are 24 unfilled cells each, above the axis and the hour labels. *)
Theorem hourly_chart_all_zero (hourly_usage : gmap nat Q) (max_height : Z) :
  hourly_usage <> ∅ ->
  (forall h v, hourly_usage !! h = Some v -> v == 0) ->
  chart_divisor hourly_usage = Ok 1%Q /\
  create_hourly_chart hourly_usage max_height
  = Ok (replicate (Z.to_nat max_height) (spaces 24)
        ++ [str_repeat "-" 24; hour_labels])%list.
Proof.
  intros Hne Hzero.
  pose proof (chart_divisor_all_zero hourly_usage Hzero) as Hdiv.
  split; [exact Hdiv |].
  unfold create_hourly_chart.
  rewrite decide_False by assumption. rewrite Hdiv. simpl.
  rewrite (rmap_const _ (spaces 24)).
  - simpl. unfold levels. now rewrite length_map, length_seq.
  - intros level Hlevel. apply levels_positive in Hlevel.
    unfold chart_line.
    rewrite (rmap_const _ " ")
      by (intros hour _; now apply chart_cell_zero).
    reflexivity.
Qed.

(** *** Window label *)

(** C9: the window label of 1 day is the 24-hour label, of 7 and of 30
    days the 7-day and the 30-day label, and of every other positive day
    count [N] the generic label built from [N]; 3 days give the generic
    label with 3. *)
Theorem period_label_mapping :
  period_label 1 = "过去 24 小时" /\
  period_label 7 = "过去 7 天" /\
  period_label 30 = "过去 30 天" /\
  (forall N : Z, (0 < N)%Z -> N <> 1%Z -> N <> 7%Z -> N <> 30%Z ->
     period_label N = "过去 " ++ str_of_Z N ++ " 天") /\
  period_label 3 = "过去 3 天".
Proof.
  repeat split.
  intros N Hpos H1 H7 H30. unfold period_label.
  apply Z.eqb_neq in H1, H7, H30. now rewrite H1, H7, H30.
Qed.

(** *** Command dispatch *)

Lemma preset_day_count_uncaught get_app_name get_usage_data export_to_json
    (prog command token : string) (rest out : list string) :
  In (lower command) ["v"; "visual"; "iphone"; "export"; "debug"] ->
  py_int token = Raise ValueError ->
  main get_app_name get_usage_data export_to_json
       (prog :: command :: token :: rest) out
  = (Raise ValueError, out).
Proof.
  intros Hcmd Htok. unfold main, day_argument. rewrite Htok.
  simpl in Hcmd.
  destruct Hcmd as [<- | [<- | [<- | [<- | [<- | []]]]]]; reflexivity.
Qed.

Lemma fallback_reports_unknown get_app_name get_usage_data export_to_json
    (prog command : string) (rest out : list string) :
  ~ In (lower command)
       ["1"; "24h"; "today"; "7"; "7d"; "week"; "30"; "30d"; "month";
        "v"; "visual"; "iphone"; "export"; "debug"; "help"] ->
  py_int (lower command) = Raise ValueError ->
  main get_app_name get_usage_data export_to_json
       (prog :: command :: rest) out
  = (Ok tt,
     (out ++ [("❌ 未知命令：" ++ lower command)%string;
              "使用 'help' 查看帮助信息"])%list).
Proof.
  intros Hcmd Htok. unfold main.
  assert (forall tokens,
            (forall t, In t tokens ->
               In t ["1"; "24h"; "today"; "7"; "7d"; "week"; "30"; "30d";
                     "month"; "v"; "visual"; "iphone"; "export"; "debug";
                     "help"]) ->
            one_of (lower command) tokens = false) as Hone.
  { intros tokens Hsub. unfold one_of.
    apply not_true_is_false. intros Hex.
    apply existsb_exists in Hex as (t & Hin & Heq).
    apply String.eqb_eq in Heq. subst t. apply Hcmd, Hsub, Hin. }
  cbv zeta. rewrite !Hone by (intros t Ht; simpl in *; tauto).
  assert (forall t, In t ["export"; "debug"; "help"] ->
            String.eqb (lower command) t = false) as Heqb.
  { intros t Ht. apply String.eqb_neq. intros Heq. apply Hcmd.
    rewrite Heq. simpl in *. tauto. }
  rewrite !Heqb by (simpl; tauto).
  unfold try_except, mbind, M_bind, lift. rewrite Htok. simpl.
  unfold print. now rewrite <- app_assoc.
Qed.

(** C2: a day count that is not an integer is reported as an unknown
    command when it is the bare command token, but as the trailing
    argument of [visual], [debug] or [export] the [ValueError] of [int]
    is not caught and ends the program. *)
Theorem main_day_count_not_caught get_app_name get_usage_data export_to_json
    (out : list string) :
  main get_app_name get_usage_data export_to_json
       ["screen_time_checker.py"; "visual"; "abc"] out
  = (Raise ValueError, out) /\
  main get_app_name get_usage_data export_to_json
       ["screen_time_checker.py"; "debug"; "abc"] out
  = (Raise ValueError, out) /\
  main get_app_name get_usage_data export_to_json
       ["screen_time_checker.py"; "export"; "abc"] out
  = (Raise ValueError, out) /\
  main get_app_name get_usage_data export_to_json
       ["screen_time_checker.py"; "abc"] out
  = (Ok tt, (out ++ ["❌ 未知命令：abc"; "使用 'help' 查看帮助信息"])%list).
Proof.
  repeat split.
  unfold main, try_except, mbind, M_bind, lift, print. simpl.
  now rewrite <- app_assoc.
Qed.

(** *** Instances on the sample data *)

Lemma sample_usage_records : usage_records sample_usage.
Proof. repeat constructor; simpl; unfold Qle; simpl; lia. Qed.

Lemma utc_hour_range (t : Q) (h : nat) : utc_hour t = Ok h -> (h < 24)%nat.
Proof.
  unfold utc_hour. intros [= <-].
  pose proof (Z.mod_pos_bound (Qfloor t / 3600) 24 eq_refl). lia.
Qed.

Lemma zero_buckets_all_zero (h : nat) (v : Q) :
  zero_buckets !! h = Some v -> v == 0.
Proof.
  rewrite zero_buckets_lookup.
  destruct (decide (h < 24)%nat); intros [= <-]. reflexivity.
Qed.





(** C10 at 59.9 seconds. *)
Lemma format_time_rounds_up_to_60_witness :
  (119 # 2 <= 599 # 10)%Q /\ (599 # 10 < 60)%Q /\
  format_time (599 # 10) = "60秒".
Proof.
  assert (119 # 2 <= 599 # 10)%Q as Hlo by (unfold Qle; simpl; lia).
  assert (599 # 10 < 60)%Q as Hhi by reflexivity.
  split; [exact Hlo |]. split; [exact Hhi |].
  exact (format_time_rounds_up_to_60 (599 # 10) Hlo Hhi).
Defined.

(** C9 at 3 days. *)
Lemma period_label_mapping_witness :
  (0 < 3)%Z /\ 3%Z <> 1%Z /\ 3%Z <> 7%Z /\ 3%Z <> 30%Z /\
  period_label 3 = "过去 " ++ str_of_Z 3 ++ " 天".
Proof.
  split; [lia |]. split; [lia |]. split; [lia |]. split; [lia |].
  apply (proj1 (proj2 (proj2 (proj2 period_label_mapping)))); lia.
Defined.

(** C6 on the 24 zero buckets, with the default 8 levels. *)
Lemma hourly_chart_all_zero_witness :
  zero_buckets <> ∅ /\
  (forall h v, zero_buckets !! h = Some v -> v == 0) /\
  chart_divisor zero_buckets = Ok 1%Q /\
  create_hourly_chart zero_buckets 8
  = Ok (replicate 8 (spaces 24) ++ [str_repeat "-" 24; hour_labels])%list.
Proof.
  assert (zero_buckets <> ∅) as Hne.
  { intros H. pose proof (zero_buckets_lookup 0) as H0.
    rewrite H, lookup_empty in H0. discriminate H0. }
  split; [exact Hne |]. split; [exact zero_buckets_all_zero |].
  exact (hourly_chart_all_zero zero_buckets 8 Hne zero_buckets_all_zero).
Defined.



(* ================================================================== *)
(** ** Further properties *)
(* ================================================================== *)

(** *** Name resolution *)

Lemma get_app_name_cached (env : Names.os_env)
    (app_names : gmap string string) (bundle_id name : string) :
  app_names !! bundle_id = Some name ->
  Names.get_app_name env app_names bundle_id = (name, app_names).
Proof. intros H. unfold Names.get_app_name. now rewrite H. Qed.

Lemma get_app_name_fresh (env : Names.os_env)
    (app_names : gmap string string) (bundle_id : string) :
  app_names !! bundle_id = None ->
  Names.get_app_name env app_names bundle_id
  = ((Names.get_app_name env ∅ bundle_id).1,
     <[bundle_id := (Names.get_app_name env ∅ bundle_id).1]> app_names).
Proof.
  intros H. unfold Names.get_app_name. rewrite H, lookup_empty.
  destruct (Names.common_apps !! bundle_id); [reflexivity |].
  destruct (Names.probe_all env _); reflexivity.
Qed.

Lemma get_app_name_result (env : Names.os_env)
    (app_names : gmap string string) (bundle_id : string) :
  (Names.get_app_name env app_names bundle_id).2 !! bundle_id
  = Some (Names.get_app_name env app_names bundle_id).1 /\
  forall other,
    other <> bundle_id ->
    (Names.get_app_name env app_names bundle_id).2 !! other
    = app_names !! other.
Proof.
  destruct (app_names !! bundle_id) as [name|] eqn:H.
  - rewrite (get_app_name_cached env _ _ _ H). simpl. auto.
  - rewrite (get_app_name_fresh env _ _ H). simpl.
    split; [apply lookup_insert_eq |].
    intros other Hne. now apply lookup_insert_ne.
Qed.

(** X1: after [get_app_name] returns a name for a bundle id, the cache
    holds that name for the id, and the entries of all other ids are as
    before. *)
Theorem get_app_name_fills_cache (env : Names.os_env)
    (app_names : gmap string string) (bundle_id : string) :
  let r := Names.get_app_name env app_names bundle_id in
  r.2 !! bundle_id = Some r.1 /\
  forall other, other <> bundle_id -> r.2 !! other = app_names !! other.
Proof.
  intros r. subst r.
  destruct (app_names !! bundle_id) as [name|] eqn:H.
  - rewrite (get_app_name_cached env _ _ _ H). simpl. auto.
  - rewrite (get_app_name_fresh env _ _ H). simpl.
    split; [apply lookup_insert_eq |].
    intros other Hne. now apply lookup_insert_ne.
Qed.

(** X2: a second call for the same bundle id returns the name of the first
    call and leaves the cache as it is, whatever the operating system
    answers by then. *)
Theorem get_app_name_stable (env env' : Names.os_env)
    (app_names : gmap string string) (bundle_id : string) :
  let r := Names.get_app_name env app_names bundle_id in
  Names.get_app_name env' r.2 bundle_id = r.
Proof.
  intros r.
  destruct (get_app_name_result env app_names bundle_id) as [H _].
  fold r in H. rewrite (get_app_name_cached env' _ _ _ H).
  now destruct r.
Qed.


Lemma probe_fails_None (env : Names.os_env) (app_path : string) :
  probe_fails env app_path -> Names.probe env app_path = None.
Proof.
  unfold probe_fails, Names.probe.
  intros [H | [H | (rc & out & H & Hbad)]].
  - now rewrite H.
  - rewrite H. now destruct (Names.path_exists env app_path).
  - rewrite H. destruct (Names.path_exists env app_path); [| reflexivity].
    destruct Hbad as [Hrc | [Hblank | Hnull]].
    + apply Z.eqb_neq in Hrc. now rewrite Hrc.
    + rewrite Hblank. now rewrite andb_false_r.
    + rewrite Hnull. now destruct (rc =? 0)%Z.
Qed.


(** X5: a cached bundle id and a bundle id of the table of common
    applications are resolved without the operating system: the result
    does not depend on its answers. *)
Theorem get_app_name_known_without_os (env env' : Names.os_env)
    (app_names : gmap string string) (bundle_id : string) :
  is_Some (app_names !! bundle_id) \/
  is_Some (Names.common_apps !! bundle_id) ->
  Names.get_app_name env app_names bundle_id
  = Names.get_app_name env' app_names bundle_id.
Proof.
  intros H. unfold Names.get_app_name.
  destruct (app_names !! bundle_id); [reflexivity |].
  destruct H as [[? H] | [name H]]; [discriminate | now rewrite H].
Qed.

(** *** The aggregate query *)

#[local] Instance seconds_desc_trans : Transitive Store.seconds_desc.
Proof. intros a b c. unfold Store.seconds_desc. intros; lra. Qed.

#[local] Instance seconds_desc_total : Total Store.seconds_desc.
Proof.
  intros a b. unfold Store.seconds_desc.
  destruct (Qlt_le_dec a.2 b.2); [right | left]; lra.
Qed.

Lemma having_Some (group : string * option Q) (rec : usage_row) :
  Store.having group = Some rec ->
  group = (rec.1, Some rec.2) /\ (60 < rec.2)%Q.
Proof.
  destruct group as [b [s|]]; unfold Store.having; simpl; [| discriminate].
  destruct (Qltb 60 s) eqn:E; [| discriminate].
  intros [= <-]. simpl. split; [reflexivity | now apply Qltb_lt].
Qed.

Lemma elem_of_usage_query (since : Z) (table : list Store.zobject)
    (rec : usage_row) :
  rec ∈ Store.usage_query since table <->
  Store.group_sums (List.filter (Store.in_window since) table) !! rec.1
  = Some (Some rec.2) /\ (60 < rec.2)%Q.
Proof.
  unfold Store.usage_query. rewrite merge_sort_Permutation.
  rewrite list_elem_of_omap. split.
  - intros (group & Hin & Hhaving).
    apply having_Some in Hhaving as [-> Hlt].
    apply elem_of_map_to_list in Hin. auto.
  - intros [Hlook Hlt]. exists (rec.1, Some rec.2). split.
    + now apply elem_of_map_to_list.
    + unfold Store.having. simpl.
      rewrite (proj2 (Qltb_lt _ _) Hlt). now destruct rec.
Qed.

(** X6: every row the aggregate query returns has more than 60 seconds. *)
Theorem usage_query_over_60 (since : Z) (table : list Store.zobject) :
  Forall (fun rec => (60 < rec.2)%Q) (Store.usage_query since table).
Proof.
  apply Forall_forall. intros rec Hin.
  now apply elem_of_usage_query in Hin as [_ H].
Qed.

Lemma omap_having_fst (groups : list (string * option Q)) :
  (omap Store.having groups).*1 `sublist_of` groups.*1.
Proof.
  induction groups as [|group groups IH]; simpl; [constructor |].
  destruct (Store.having group) as [rec|] eqn:E.
  - apply having_Some in E as [-> _]. simpl. now constructor.
  - now constructor.
Qed.

(** X7: no two rows the aggregate query returns have the same bundle id. *)
Theorem usage_query_distinct (since : Z) (table : list Store.zobject) :
  NoDup (Store.usage_query since table).*1.
Proof.
  unfold Store.usage_query. rewrite merge_sort_Permutation.
  eapply sublist_NoDup; [| apply omap_having_fst].
  apply NoDup_fst_map_to_list.
Qed.

(** X8: the rows the aggregate query returns are in non-increasing order
    of seconds: no row has more seconds than a row before it. *)
Theorem usage_query_sorted (since : Z) (table : list Store.zobject) :
  StronglySorted (fun a b : usage_row => (b.2 <= a.2)%Q)
                 (Store.usage_query since table).
Proof.
  unfold Store.usage_query.
  apply (StronglySorted_merge_sort Store.seconds_desc).
Qed.

Lemma py_sum_snoc (xs : list Q) (x : Q) : py_sum (xs ++ [x]) == py_sum xs + x.
Proof.
  unfold py_sum. rewrite fold_left_app. reflexivity.
Qed.

Lemma filter_filter {A} (f g : A -> bool) (l : list A) :
  List.filter f (List.filter g l) = List.filter (fun x => g x && f x) l.
Proof.
  induction l as [|x l IH]; simpl; [reflexivity |].
  destruct (g x); simpl; [destruct (f x) |]; now rewrite IH.
Qed.

Lemma group_sums_snoc (rows : list Store.zobject) (r : Store.zobject) :
  Store.group_sums (rows ++ [r])
  = Store.add_to_group (Store.group_sums rows) r.
Proof. unfold Store.group_sums. now rewrite foldl_app. Qed.

(** The group of [bundle_id] after [GROUP BY] over [rows]: absent when no
    row belongs to it, [NULL] when none of its rows has an end date, and
    otherwise the sum of the elapsed times of its rows that have one. *)
Lemma group_sums_spec (rows : list Store.zobject) (bundle_id : string) :
  let mine :=
    List.filter
      (fun r => bool_decide (Store.ZVALUESTRING r = Some bundle_id)) rows in
  match Store.group_sums rows !! bundle_id with
  | None => mine = []
  | Some None => omap Store.elapsed mine = []
  | Some (Some s) =>
      s == py_sum (omap Store.elapsed mine) /\ omap Store.elapsed mine <> []
  end.
Proof.
  induction rows as [|r rows IH] using rev_ind; [reflexivity |].
  simpl in *. rewrite group_sums_snoc, List.filter_app. simpl.
  unfold Store.add_to_group.
  destruct (Store.ZVALUESTRING r) as [value|] eqn:Hvalue.
  - destruct (decide (value = bundle_id)) as [-> | Hne].
    + rewrite lookup_insert_eq, bool_decide_true by reflexivity.
      rewrite omap_app. simpl.
      destruct (Store.group_sums rows !! bundle_id) as [[s|]|] eqn:Hg; simpl;
        destruct (Store.elapsed r) as [t|]; simpl.
      * destruct IH as [IH Hne]. split.
        -- rewrite py_sum_snoc, IH. reflexivity.
        -- intros Happ. now apply app_eq_nil in Happ as [_ ?].
      * now rewrite app_nil_r.
      * rewrite IH. simpl. split; [unfold py_sum; simpl; lra | discriminate].
      * now rewrite IH.
      * rewrite IH. simpl. split; [unfold py_sum; simpl; lra | discriminate].
      * now rewrite IH.
    + rewrite lookup_insert_ne by assumption.
      rewrite bool_decide_false by congruence.
      now rewrite !app_nil_r.
  - rewrite bool_decide_false by discriminate. now rewrite !app_nil_r.
Qed.

Lemma group_sums_seconds_of (since : Z) (table : list Store.zobject)
    (bundle_id : string) :
  match Store.group_sums (List.filter (Store.in_window since) table)
        !! bundle_id with
  | Some (Some s) => s == seconds_of since table bundle_id
  | _ => seconds_of since table bundle_id == 0
  end.
Proof.
  pose proof (group_sums_spec (List.filter (Store.in_window since) table)
                bundle_id) as H.
  simpl in H. rewrite filter_filter in H. unfold seconds_of.
  destruct (Store.group_sums _ !! bundle_id) as [[s|]|].
  - now destruct H.
  - now rewrite H.
  - now rewrite H.
Qed.


(** *** The interval query *)

#[local] Instance start_asc_trans : Transitive Store.start_asc.
Proof.
  intros a b c. unfold Store.start_asc.
  destruct (Store.ZSTARTDATE a), (Store.ZSTARTDATE b), (Store.ZSTARTDATE c);
    intros; try tauto; lra.
Qed.

#[local] Instance start_asc_total : Total Store.start_asc.
Proof.
  intros a b. unfold Store.start_asc.
  destruct (Store.ZSTARTDATE a) as [s|], (Store.ZSTARTDATE b) as [t|];
    try tauto.
  destruct (Qlt_le_dec t s); [right | left]; lra.
Qed.

Lemma to_interval_Some (since : Z) (r : Store.zobject) :
  Store.in_window since r && Store.long_enough r = true ->
  exists value s e,
    Store.ZSTARTDATE r = Some s /\
    Store.to_interval r
    = Some (mk_interval value (s + 978307200) (e + 978307200) (e - s)) /\
    (60 < e - s)%Q /\ (inject_Z since < s)%Q.
Proof.
  unfold Store.in_window, Store.long_enough, Store.elapsed, Store.to_interval.
  destruct (Store.ZSTREAMNAME r) as [stream|]; [| discriminate].
  destruct (Store.ZSTARTDATE r) as [s|]; [| discriminate].
  destruct (Store.ZVALUESTRING r) as [value|]; [| discriminate].
  destruct (Store.ZENDDATE r) as [e|];
    [| rewrite andb_false_r; discriminate].
  intros H. apply andb_true_iff in H as [Hw Hlong].
  apply andb_true_iff in Hw as [Hw _]. apply andb_true_iff in Hw as [_ Hs].
  apply Qltb_lt in Hs, Hlong.
  exists value, s, e. auto.
Qed.

Lemma elem_of_interval_query (since : Z) (table : list Store.zobject)
    (iv : interval) :
  iv ∈ Store.interval_query since table ->
  exists r,
    In r table /\
    Store.in_window since r && Store.long_enough r = true /\
    Store.to_interval r = Some iv.
Proof.
  unfold Store.interval_query. rewrite list_elem_of_omap.
  intros (r & Hin & Hiv). rewrite merge_sort_Permutation in Hin.
  apply list_elem_of_In, filter_In in Hin as [Hin Hq]. eauto.
Qed.


Lemma StronglySorted_omap {A B} (R : relation A) (R' : relation B)
    (f : A -> option B) (l : list A) :
  (forall a b x y, R a b -> f a = Some x -> f b = Some y -> R' x y) ->
  StronglySorted R l -> StronglySorted R' (omap f l).
Proof.
  intros Hf. induction 1 as [|a l _ IH Hall]; simpl; [constructor |].
  destruct (f a) as [x|] eqn:Hx; [| exact IH].
  constructor; [exact IH |].
  apply Forall_forall. intros y Hy.
  apply list_elem_of_omap in Hy as (b & Hb & Hfb).
  rewrite Forall_forall in Hall. eauto.
Qed.

Lemma length_omap_total {A B} (f : A -> option B) (l : list A) :
  Forall (fun a => is_Some (f a)) l -> length (omap f l) = length l.
Proof.
  induction 1 as [|a l [b Hb] _ IH]; simpl; [reflexivity |].
  rewrite Hb. simpl. f_equal. exact IH.
Qed.

(** X11: the interval query returns its intervals in non-decreasing order
    of start time, one for each row of the table that passes its [WHERE]
    clause. *)
Theorem interval_query_sorted (since : Z) (table : list Store.zobject) :
  StronglySorted (fun a b => (iv_start_time a <= iv_start_time b)%Q)
                 (Store.interval_query since table) /\
  length (Store.interval_query since table)
  = length (List.filter
              (fun r => Store.in_window since r && Store.long_enough r)
              table).
Proof.
  split.
  - unfold Store.interval_query.
    eapply StronglySorted_omap;
      [| apply (StronglySorted_merge_sort Store.start_asc)].
    intros a b x y Hab Hx Hy.
    unfold Store.start_asc, Store.to_interval in *.
    destruct (Store.ZVALUESTRING a), (Store.ZSTARTDATE a),
      (Store.ZENDDATE a); try discriminate.
    destruct (Store.ZVALUESTRING b), (Store.ZSTARTDATE b),
      (Store.ZENDDATE b); try discriminate.
    injection Hx as <-. injection Hy as <-. simpl. lra.
  - unfold Store.interval_query.
    rewrite <- (Permutation_length
                  (merge_sort_Permutation Store.start_asc
                     (List.filter
                        (fun r => Store.in_window since r
                                  && Store.long_enough r) table))).
    apply length_omap_total, Forall_forall. intros r Hr.
    rewrite merge_sort_Permutation in Hr.
    apply list_elem_of_In, filter_In in Hr as [_ Hq].
    apply to_interval_Some in Hq as (value & s & e & _ & Hiv & _). eauto.
Qed.

(** *** The report on the rows of the database *)

Lemma print_each_Ok (indent : string) (lines out : list string) :
  print_each indent lines out
  = (Ok tt, (out ++ map (fun line => (indent ++ line)%string) lines)%list).
Proof.
  revert out. induction lines as [|line lines IH]; intros out; simpl.
  - now rewrite app_nil_r.
  - unfold mbind, M_bind, print. rewrite IH. now rewrite <- app_assoc.
Qed.

Lemma over_60_total (usage_data : list usage_row) :
  Forall (fun rec => (60 < rec.2)%Q) usage_data -> usage_data <> [] ->
  (0 < total_of usage_data)%Q /\
  exists m, py_max (map snd usage_data) = Ok m /\ (0 < m)%Q.
Proof.
  intros Hall Hne.
  destruct usage_data as [|rec usage_data]; [contradiction |].
  inversion Hall as [|? ? Hrec Hrest]; subst. split.
  - unfold total_of. simpl map. rewrite py_sum_cons.
    assert (0 <= py_sum (map snd usage_data))%Q; [| lra].
    apply py_sum_nonneg. apply List.Forall_forall. intros x Hx.
    apply in_map_iff in Hx as (rec' & <- & Hin').
    rewrite List.Forall_forall in Hrest. specialize (Hrest rec' Hin'). lra.
  - simpl. eexists. split; [reflexivity |].
    destruct (py_max_from_spec (map snd usage_data) rec.2) as (_ & Hle & _).
    lra.
Qed.

Lemma print_usage_report_Ok get_app_name get_usage_data
    (days : Z) (debug visual : bool) (usage_data : list usage_row)
    (out out' : list string) :
  get_usage_data days out = (Ok usage_data, out') ->
  Forall (fun rec => (60 < rec.2)%Q) usage_data ->
  exists out'',
    print_usage_report get_app_name get_usage_data days debug visual out
    = (Ok tt, out'').
Proof.
  intros Hdata Hall.
  destruct usage_data as [|rec rest] eqn:Husage.
  { eexists. apply print_usage_report_empty. exact Hdata. }
  destruct (over_60_total (rec :: rest) Hall) as (Hpos & m & Hm & Hmpos);
    [discriminate |].
  assert (~ total_of (rec :: rest) == 0) as Ht by lra.
  unfold print_usage_report, mbind, M_bind. rewrite Hdata.
  set (usage := rec :: rest) in *.
  destruct visual.
  - destruct (bar_chart_rows_Ok get_app_name usage m 30 Hm)
      as (rows & Hrows & _); [lra | assumption |].
    unfold print, lift, create_bar_chart. rewrite Hrows. simpl.
    rewrite print_each_Ok. eexists. reflexivity.
  - unfold print, mret, M_ret.
    destruct debug; cbv beta iota.
    + match goal with
      | |- context [list_loop ?g ?n ?t 1 0%Q ?u ?o] =>
          destruct (list_loop_spec g n t Ht u 1 0%Q o) as (lines & Hloop & _);
            [lia |]; rewrite Hloop
      end.
      destruct (true && _); [| eexists; reflexivity].
      destruct (Qltb 1 _); eexists; reflexivity.
    + match goal with
      | |- context [list_loop ?g ?n ?t 1 0%Q ?u ?o] =>
          destruct (list_loop_spec g n t Ht u 1 0%Q o) as (lines & Hloop & _);
            [lia |]; rewrite Hloop
      end.
      eexists. reflexivity.
Qed.

Lemma get_usage_data_Ok (w : Program.world) (days : Z) (out : list string) :
  exists usage_data out',
    Program.get_usage_data w days out = (Ok usage_data, out') /\
    Forall (fun rec => (60 < rec.2)%Q) usage_data.
Proof.
  unfold Program.get_usage_data, Program.check_database, mbind, M_bind.
  destruct (Program.db w) as [|e|e|rows]; simpl.
  - eexists _, _. split; [reflexivity | constructor].
  - eexists _, _. split; [reflexivity | constructor].
  - destruct (Program.since_of w days); eexists _, _;
      (split; [reflexivity | constructor]).
  - destruct (Program.since_of w days) as [e|since].
    + eexists _, _. split; [reflexivity | constructor].
    + eexists _, _. split; [reflexivity |].
      apply Forall_forall. intros rec Hin.
      now apply elem_of_usage_query in Hin as [_ H].
Qed.


Lemma export_to_json_Ok (w : Program.world) (days : Z)
    (filename : option string) (out : list string) :
  exists written out',
    Program.export_to_json w days filename out = (Ok written, out').
Proof.
  destruct (get_usage_data_Ok w days out) as (usage_data & out' & Hdata & _).
  unfold Program.export_to_json, mbind, M_bind. rewrite Hdata.
  destruct usage_data; eexists _, _; reflexivity.
Qed.

Lemma one_of_In (command : string) (tokens : list string) :
  one_of command tokens = true -> In command tokens.
Proof.
  unfold one_of. intros H. apply existsb_exists in H as (t & Hin & Heq).
  apply String.eqb_eq in Heq. now subst.
Qed.

Lemma report_ok (w : Program.world) (days : Z) (debug visual : bool)
    (out : list string) :
  exists out',
    print_usage_report (Program.resolve w) (Program.get_usage_data w)
      days debug visual out = (Ok tt, out').
Proof.
  destruct (get_usage_data_Ok w days out) as (usage_data & out' & Hdata & Hall).
  exact (print_usage_report_Ok (Program.resolve w)
           (Program.get_usage_data w) days debug visual usage_data
           out out' Hdata Hall).
Qed.


(** *** Export *)

Lemma read_apps_export (w : Program.world) (days : Z)
    (usage_data : list usage_row) :
  read_apps (Program.export_data w days usage_data) = Some usage_data.
Proof.
  unfold read_apps, Program.export_data. simpl.
  induction usage_data as [|[bundle_id seconds] usage_data IH];
    [reflexivity |].
  simpl. unfold mbind, option_bind in *. simpl. now rewrite IH.
Qed.


(** *** Layout of the bar chart *)

Lemma py_len_app (a b : string) : py_len (a ++ b) = (py_len a + py_len b)%nat.
Proof.
  induction a as [|c a IH]; [reflexivity |].
  change (String c a ++ b) with (String c (a ++ b)). simpl.
  destruct (is_continuation c); simpl; now rewrite IH.
Qed.

Lemma py_len_repeat (s : string) (n : nat) :
  py_len (str_repeat_nat s n) = (n * py_len s)%nat.
Proof.
  induction n as [|n IH]; [reflexivity |].
  simpl. rewrite py_len_app, IH. lia.
Qed.

Lemma py_len_spaces (n : nat) : py_len (spaces n) = n.
Proof. unfold spaces. rewrite py_len_repeat. simpl. lia. Qed.

Lemma py_len_take (n : nat) (s : string) : (py_len (py_take n s) <= n)%nat.
Proof.
  revert n. induction s as [|c s IH]; intros n; simpl; [lia |].
  destruct (is_continuation c) eqn:E; simpl.
  - rewrite E. apply IH.
  - destruct n as [|n]; simpl; [lia |]. rewrite E. specialize (IH n). lia.
Qed.

Lemma py_len_ljust (w : nat) (s : string) :
  (py_len s <= w)%nat -> py_len (ljust w s) = w.
Proof. intros H. unfold ljust. rewrite py_len_app, py_len_spaces. lia. Qed.

Lemma rmap_inv {A B} (f : A -> result B) (xs : list A) (ys : list B) :
  rmap f xs = Ok ys -> Forall2 (fun x y => f x = Ok y) xs ys.
Proof.
  revert ys. induction xs as [|x xs IH]; intros ys; simpl.
  - intros [= <-]. constructor.
  - destruct (f x) as [y|e] eqn:Hy; simpl; [| discriminate].
    destruct (rmap f xs) as [ys'|e]; simpl; [| discriminate].
    intros [= <-]. constructor; [assumption | now apply IH].
Qed.

Lemma bar_chart_rows_inv get_app_name (usage_data : list usage_row)
    (max_width : Z) (rows : list chart_row) :
  bar_chart_rows get_app_name usage_data max_width = Ok rows ->
  usage_data <> [] ->
  exists m,
    py_max (map snd usage_data) = Ok m /\
    Forall2 (fun rec row =>
               bar_chart_row get_app_name usage_data m max_width rec = Ok row)
            usage_data rows.
Proof.
  intros Hrows Hne. unfold bar_chart_rows in Hrows.
  destruct usage_data as [|rec rest]; [contradiction |].
  destruct (py_max (map snd (rec :: rest))) as [m|e]; [| discriminate].
  exists m. split; [reflexivity |]. now apply rmap_inv.
Qed.

Lemma bar_chart_row_inv get_app_name (usage_data : list usage_row)
    (m : Q) (max_width : Z) (rec : usage_row) (row : chart_row) :
  bar_chart_row get_app_name usage_data m max_width rec = Ok row ->
  ~ m == 0 /\
  row_bar_length row = py_trunc (rec.2 / m * inject_Z max_width) /\
  row_bar row
  = str_repeat full_block (row_bar_length row)
    ++ str_repeat light_shade (max_width - row_bar_length row) /\
  (py_len (row_name row) <= 15)%nat.
Proof.
  destruct rec as [bundle_id seconds]. unfold bar_chart_row, py_div.
  destruct (Qeq_bool m 0) eqn:Em; [discriminate |].
  simpl. destruct (percentage_of seconds (total_of usage_data)); simpl;
    [| discriminate].
  intros [= <-]. simpl. split.
  - intros H. apply Qeq_bool_iff in H. congruence.
  - split; [reflexivity |]. split; [reflexivity |].
    destruct (15 <? py_len (get_app_name bundle_id))%nat eqn:E.
    + rewrite py_len_app.
      pose proof (py_len_take 12 (get_app_name bundle_id)).
      change (py_len "...") with 3%nat. lia.
    + apply Nat.ltb_ge in E. exact E.
Qed.

Lemma py_trunc_mono (x y : Q) : (x <= y)%Q -> (py_trunc x <= py_trunc y)%Z.
Proof.
  intros H. unfold py_trunc.
  destruct (Qltb x 0) eqn:Ex, (Qltb y 0) eqn:Ey.
  - now apply Qceiling_resp_le.
  - apply Qltb_lt in Ex. apply Qltb_ge in Ey.
    transitivity 0%Z.
    + change 0%Z with (Qceiling 0). apply Qceiling_resp_le. lra.
    + change 0%Z with (Qfloor 0). now apply Qfloor_resp_le.
  - apply Qltb_ge in Ex. apply Qltb_lt in Ey. lra.
  - now apply Qfloor_resp_le.
Qed.


(** X16: in a bar chart, a record with no more seconds than another record
    with positive seconds has a bar that is no longer. *)
Theorem bar_lengths_monotone (get_app_name : string -> string)
    (usage_data : list usage_row) (max_width : Z) (rows : list chart_row)
    (i j : nat) (rec1 rec2 : usage_row) (row1 row2 : chart_row) :
  bar_chart_rows get_app_name usage_data max_width = Ok rows ->
  (0 <= max_width)%Z ->
  usage_data !! i = Some rec1 -> usage_data !! j = Some rec2 ->
  rows !! i = Some row1 -> rows !! j = Some row2 ->
  (rec1.2 <= rec2.2)%Q -> (0 < rec2.2)%Q ->
  (row_bar_length row1 <= row_bar_length row2)%Z.
Proof.
  intros Hrows Hw Hi Hj Hri Hrj Hle Hpos.
  assert (usage_data <> []) as Hne by (intros ->; discriminate).
  destruct (bar_chart_rows_inv get_app_name usage_data max_width rows
              Hrows Hne) as (m & Hm & Hall).
  destruct (Forall2_lookup_l _ _ _ _ _ Hall Hi) as (r1 & Hr1 & H1).
  destruct (Forall2_lookup_l _ _ _ _ _ Hall Hj) as (r2 & Hr2 & H2).
  assert (r1 = row1) as -> by congruence.
  assert (r2 = row2) as -> by congruence.
  apply bar_chart_row_inv in H1 as (_ & -> & _).
  apply bar_chart_row_inv in H2 as (_ & -> & _).
  assert (rec2.2 <= m)%Q as Hmax.
  { destruct (map snd usage_data) as [|x xs] eqn:Hmap; [discriminate |].
    injection Hm as <-.
    destruct (py_max_from_spec xs x) as (_ & Hx & Hxs).
    assert (In rec2.2 (x :: xs)) as [<- | Hin].
    { rewrite <- Hmap. apply in_map.
      apply list_elem_of_In. eapply list_elem_of_lookup_2. exact Hj. }
    - exact Hx.
    - rewrite List.Forall_forall in Hxs. auto. }
  assert (0 <= inject_Z max_width)%Q
    by (change 0%Q with (inject_Z 0); now rewrite <- Zle_Qle).
  apply py_trunc_mono. apply Qmult_le_compat_r; [| assumption].
  unfold Qdiv. apply Qmult_le_compat_r; [assumption |].
  apply Qlt_le_weak, Qinv_lt_0_compat. lra.
Qed.

(** X17: [create_bar_chart] itself does not guard a zero maximum: on a
    non-empty list whose records all have zero seconds it raises
    [ZeroDivisionError]. *)
Theorem bar_chart_zero_max_raises (get_app_name : string -> string)
    (usage_data : list usage_row) (max_width : Z) :
  usage_data <> [] ->
  Forall (fun rec => rec.2 == 0) usage_data ->
  create_bar_chart get_app_name usage_data max_width
  = Raise ZeroDivisionError.
Proof.
  intros Hne Hall.
  destruct usage_data as [|[bundle_id seconds] rest]; [contradiction |].
  unfold create_bar_chart, bar_chart_rows. simpl py_max.
  destruct (py_max_from_spec (map snd rest) seconds) as (Hin & _ & _).
  assert (py_max_from seconds (map snd rest) == 0) as Hm.
  { rewrite List.Forall_forall in Hall.
    destruct Hin as [-> | Hin]; [apply (Hall (bundle_id, seconds)); now left |].
    apply in_map_iff in Hin as (rec & <- & Hrec). apply Hall. now right. }
  apply Qeq_bool_iff in Hm.
  simpl. unfold py_div. now rewrite Hm.
Qed.

(** *** The cells of the hourly histogram *)

Lemma chart_divisor_Ok (hourly_usage : gmap nat Q) :
  exists d,
    chart_divisor hourly_usage = Ok d /\ ~ d == 0 /\
    (forall h v, hourly_usage !! h = Some v -> (0 < d)%Q -> (v <= d)%Q) /\
    (forall h v, hourly_usage !! h = Some v -> (0 < v)%Q ->
       (forall h' v', hourly_usage !! h' = Some v' -> (v' <= v)%Q) ->
       d == v).
Proof.
  unfold chart_divisor.
  assert (forall h v, hourly_usage !! h = Some v -> In v (values hourly_usage))
    as Hvalues.
  { intros h v Hv. unfold values. apply list_elem_of_In, list_elem_of_fmap.
    exists (h, v). split; [reflexivity | now apply elem_of_map_to_list]. }
  assert (forall v, In v (values hourly_usage) ->
            exists h, hourly_usage !! h = Some v) as Hvalues'.
  { intros v Hv. unfold values in Hv.
    apply list_elem_of_In, list_elem_of_fmap in Hv as ([h v'] & -> & Hin).
    apply elem_of_map_to_list in Hin. eauto. }
  destruct (values hourly_usage) as [|x xs] eqn:Hvs.
  - simpl. exists 1%Q. split; [reflexivity |]. split; [discriminate |].
    split; intros h v Hv; destruct (Hvalues h v Hv).
  - simpl. destruct (py_max_from_spec xs x) as (Hin & Hx & Hxs).
    set (m := py_max_from x xs) in *.
    assert (In m (x :: xs)) as Hm
      by (destruct Hin as [-> | Hin]; [now left | now right]).
    assert (forall v, In v (x :: xs) -> (v <= m)%Q) as Hle.
    { intros v [<- | Hv]; [exact Hx |].
      rewrite List.Forall_forall in Hxs. auto. }
    destruct (Qeq_bool m 0) eqn:Em.
    + apply Qeq_bool_iff in Em.
      exists 1%Q. split; [reflexivity |]. split; [discriminate |]. split.
      * intros h v Hv _. specialize (Hle v (Hvalues h v Hv)). lra.
      * intros h v Hv Hpos _. specialize (Hle v (Hvalues h v Hv)). lra.
    + exists m. split; [reflexivity |]. split.
      * intros H. apply Qeq_bool_iff in H. congruence.
      * split.
        -- intros h v Hv _. apply Hle. eauto.
        -- intros h v Hv Hpos Hmax.
           destruct (Hvalues' m Hm) as [h' Hh'].
           apply Qle_antisym; [eapply Hmax; exact Hh' | apply Hle; eauto].
Qed.

(** Whether the cell of [hour] is filled on the row of [level]. *)
Lemma chart_cell_Ok (hourly_usage : gmap nat Q) (d : Q)
    (max_height level : Z) (hour : nat) :
  ~ d == 0 ->
  chart_cell hourly_usage d max_height level hour
  = Ok (if (level
            <=? py_trunc (default 0%Q (hourly_usage !! hour) / d
                          * inject_Z max_height))%Z
        then full_block else " ").
Proof. intros Hd. unfold chart_cell. now rewrite py_div_Ok. Qed.

Lemma rmap_map {A B} (f : A -> result B) (g : A -> B) (xs : list A) :
  (forall x, f x = Ok (g x)) -> rmap f xs = Ok (map g xs).
Proof.
  intros H. induction xs as [|x xs IH]; simpl; [reflexivity |].
  rewrite H. simpl. rewrite IH. reflexivity.
Qed.

Lemma create_hourly_chart_grid (hourly_usage : gmap nat Q) (max_height : Z) :
  hourly_usage <> ∅ ->
  exists d,
    chart_divisor hourly_usage = Ok d /\ ~ d == 0 /\
    create_hourly_chart hourly_usage max_height
    = Ok (map (fun level =>
                 String.concat EmptyString
                   (map (fun hour =>
                           if (level
                               <=? py_trunc
                                     (default 0%Q (hourly_usage !! hour) / d
                                      * inject_Z max_height))%Z
                           then full_block else " ") (seq 0 24)))
              (levels max_height)
          ++ [str_repeat "-" 24; hour_labels])%list.
Proof.
  intros Hne.
  destruct (chart_divisor_Ok hourly_usage) as (d & Hd & Hd0 & _).
  exists d. split; [exact Hd |]. split; [exact Hd0 |].
  unfold create_hourly_chart. rewrite decide_False by assumption.
  rewrite Hd.
  change (Ok d ≫= ?k) with (k d). cbv beta.
  rewrite (rmap_map _
             (fun level =>
                String.concat EmptyString
                  (map (fun hour =>
                          if (level
                              <=? py_trunc
                                    (default 0%Q (hourly_usage !! hour) / d
                                     * inject_Z max_height))%Z
                          then full_block else " ") (seq 0 24))));
    [reflexivity |].
  intros level. unfold chart_line.
  rewrite (rmap_map _
             (fun hour =>
                if (level
                    <=? py_trunc
                          (default 0%Q (hourly_usage !! hour) / d
                           * inject_Z max_height))%Z
                then full_block else " "));
    [reflexivity |].
  intros hour. now apply chart_cell_Ok.
Qed.

Lemma py_len_concat_cells (cells : list string) :
  Forall (fun cell => py_len cell = 1%nat) cells ->
  py_len (String.concat EmptyString cells) = length cells.
Proof.
  induction 1 as [|cell cells Hcell _ IH]; [reflexivity |].
  destruct cells as [|cell' cells].
  - simpl. exact Hcell.
  - change (String.concat EmptyString (cell :: cell' :: cells))
      with (cell ++ EmptyString
            ++ String.concat EmptyString (cell' :: cells)).
    rewrite !py_len_app, IH, Hcell. reflexivity.
Qed.


(** X19: in the hourly histogram, the column of an hour that holds the
    maximum, positive bucket value is filled on every row, and the column
    of an hour whose bucket is zero or absent is blank on every row. *)
Theorem hourly_chart_columns (hourly_usage : gmap nat Q) (max_height : Z)
    (hour : nat) :
  hourly_usage <> ∅ ->
  (hour < 24)%nat ->
  exists grid : list (list string),
    create_hourly_chart hourly_usage max_height
    = Ok (map (String.concat EmptyString) grid
          ++ [str_repeat "-" 24; hour_labels])%list /\
    length grid = Z.to_nat max_height /\
    Forall (fun cells =>
              length cells = 24%nat /\
              Forall (fun cell => cell = full_block \/ cell = " ") cells)
           grid /\
    (forall v,
       hourly_usage !! hour = Some v -> (0 < v)%Q ->
       (forall h' v', hourly_usage !! h' = Some v' -> (v' <= v)%Q) ->
       Forall (fun cells => cells !! hour = Some full_block) grid) /\
    (default 0%Q (hourly_usage !! hour) == 0 ->
     Forall (fun cells => cells !! hour = Some " ") grid).
Proof.
  intros Hne Hhour.
  destruct (chart_divisor_Ok hourly_usage) as (d & Hd & Hd0 & _ & Hpeak).
  destruct (create_hourly_chart_grid hourly_usage max_height Hne)
    as (d' & Hd' & _ & Hchart).
  assert (d' = d) as -> by congruence.
  eexists. split; [rewrite Hchart, <- map_map; reflexivity |].
  split; [unfold levels; now rewrite !length_map, length_seq |].
  split.
  { apply Forall_forall. intros cells Hcells.
    apply list_elem_of_In, in_map_iff in Hcells as (level & <- & _).
    split; [now rewrite length_map, length_seq |].
    apply Forall_forall. intros cell Hcell.
    apply list_elem_of_In, in_map_iff in Hcell as (h & <- & _).
    destruct (_ <=? _)%Z; auto. }
  assert (forall f : nat -> string,
            map f (seq 0 24) !! hour = Some (f hour)) as Hcell.
  { intros f. rewrite lookup_map.
    rewrite (lookup_seq_lt 0 24 hour Hhour). reflexivity. }
  split.
  - intros v Hv Hpos Hmax. apply Forall_forall. intros cells Hcells.
    apply list_elem_of_In, in_map_iff in Hcells as (level & <- & Hlevel).
    rewrite Hcell. f_equal.
    assert (level <= max_height)%Z as Hle.
    { unfold levels in Hlevel.
      apply in_map_iff in Hlevel as (i & <- & _). lia. }
    pose proof (levels_positive _ _ Hlevel) as Hlevel1.
    rewrite Hv. simpl.
    assert (v / d * inject_Z max_height == inject_Z max_height) as E.
    { rewrite (Hpeak hour v Hv Hpos Hmax). field. lra. }
    rewrite py_trunc_nonneg.
    2:{ rewrite E. change 0%Q with (inject_Z 0). rewrite <- Zle_Qle. lia. }
    rewrite (Qfloor_comp _ _ E), Qfloor_Z.
    now rewrite (proj2 (Z.leb_le _ _) Hle).
  - intros Hzero. apply Forall_forall. intros cells Hcells.
    apply list_elem_of_In, in_map_iff in Hcells as (level & <- & Hlevel).
    rewrite Hcell. f_equal.
    pose proof (levels_positive _ _ Hlevel) as Hlevel1.
    rewrite py_trunc_zero by (rewrite Hzero; field; exact Hd0).
    now rewrite (proj2 (Z.leb_gt _ _)) by lia.
Qed.

Lemma rfold_add_interval_raises (clock : Q -> result nat)
    (records : list interval) :
  Exists (fun r => exists e, clock (iv_start_time r) = Raise e) records ->
  forall m, exists e, rfold (add_interval clock) m records = Raise e.
Proof.
  induction 1 as [r records [e He] | r records _ IH]; intros m; cbn [rfold].
  - exists e. unfold add_interval. now rewrite He.
  - destruct (add_interval clock m r) as [m'|e]; simpl; [apply IH | eauto].
Qed.

(** X20: when the local clock cannot convert the start time of one
    interval, [get_hourly_usage] returns the empty mapping, whatever the
    other intervals are, and the histogram of that mapping has no line. *)
Theorem clock_failure_empties_chart (fromtimestamp_hour : Q -> result nat)
    (records : list interval) (max_height : Z) :
  Exists (fun r => exists e, fromtimestamp_hour (iv_start_time r) = Raise e)
         records ->
  get_hourly_usage fromtimestamp_hour records = ∅ /\
  create_hourly_chart (get_hourly_usage fromtimestamp_hour records) max_height
  = Ok [].
Proof.
  intros Hex.
  destruct (rfold_add_interval_raises fromtimestamp_hour records Hex
              zero_buckets) as [e He].
  assert (get_hourly_usage fromtimestamp_hour records = ∅) as ->.
  { unfold get_hourly_usage, hourly_buckets. now rewrite He. }
  split; [reflexivity |]. unfold create_hourly_chart.
  now rewrite decide_True.
Qed.

(** *** Short reports *)


(** *** More of the duration format *)

(** X22: in the minutes form the tenths are rounded to the nearest, so
    every duration from 3597 and below 3600 seconds is rendered as 60.0
    minutes although it is under the threshold of the hours form. *)
Theorem format_time_rounds_up_to_60_minutes (seconds : Q) :
  (3597 <= seconds)%Q -> (seconds < 3600)%Q ->
  format_time seconds = "60.0分钟".
Proof.
  intros Hlo Hhi. unfold format_time.
  rewrite (proj2 (Qltb_ge seconds 60)) by lra.
  rewrite (proj2 (Qltb_lt seconds 3600)) by assumption.
  rewrite fmt_1f_nonneg by (apply Qle_shift_div_l; lra).
  assert (seconds / 60 * 10 == seconds * (1 # 6)) as E by (field; lra).
  rewrite (round_half_even_comp _ _ E).
  unfold round_half_even.
  assert (Qfloor (seconds * (1 # 6)) = 599%Z) as ->.
  { apply Qfloor_bounds; change (inject_Z 599) with 599%Q; lra. }
  change (inject_Z 599) with 599%Q.
  destruct (Qcompare_spec (seconds * (1 # 6) - 599) (1 # 2)) as [H|H|H];
    [reflexivity | lra | reflexivity].
Qed.

(** *** More of the command dispatch *)

Lemma lower_ascii_idem (c : ascii) : lower_ascii (lower_ascii c) = lower_ascii c.
Proof. destruct c as [[] [] [] [] [] [] [] []]; reflexivity. Qed.

Lemma lower_idem (s : string) : lower (lower s) = lower s.
Proof.
  induction s as [|c s IH]; simpl; [reflexivity |].
  now rewrite lower_ascii_idem, IH.
Qed.

(** X23: the command token is case-insensitive: the program does the same
    for a command and for its lower-case form. *)
Theorem main_command_case_insensitive (get_app_name : string -> string)
    (get_usage_data : Z -> M (list usage_row))
    (export_to_json : Z -> M unit)
    (prog command : string) (rest : list string) :
  main get_app_name get_usage_data export_to_json (prog :: command :: rest)
  = main get_app_name get_usage_data export_to_json
         (prog :: lower command :: rest).
Proof.
  unfold main. cbv zeta. rewrite lower_idem.
  assert (day_argument (prog :: lower command :: rest)
          = day_argument (prog :: command :: rest)) as -> by reflexivity.
  reflexivity.
Qed.

Ltac push_inject_Z :=
  unfold Zminus;
  repeat (rewrite inject_Z_plus || rewrite inject_Z_opp
          || rewrite inject_Z_mult);
  change (inject_Z 60) with 60%Q; change (inject_Z 1) with 1%Q.

(** X24: in the hours form the seconds beyond the last whole minute are
    dropped, not rounded: from 3600 seconds on a duration is rendered as
    the duration cut down to its whole minutes is. *)
Theorem format_time_hours_drop_seconds (seconds : Q) :
  (3600 <= seconds)%Q ->
  format_time seconds = format_time (inject_Z (60 * Qfloor (seconds / 60))).
Proof.
  intros Hge.
  destruct (floordiv_bounds seconds 3600 eq_refl) as [Hh1 Hh2].
  destruct (floordiv_bounds seconds 60 eq_refl) as [Hk1 Hk2].
  change (inject_Z 3600) with 3600%Q in Hh1, Hh2.
  change (inject_Z 60) with 60%Q in Hk1, Hk2.
  set (h := Qfloor (seconds / 3600)) in *.
  set (k := Qfloor (seconds / 60)) in *.
  assert (60 * h <= k)%Z as Hlo.
  { apply Z.lt_succ_r. unfold Z.succ.
    assert (inject_Z (60 * h) < inject_Z (k + 1))%Q as H;
      [| now rewrite <- Zlt_Qlt in H].
    rewrite inject_Z_mult, inject_Z_plus.
    change (inject_Z 60) with 60%Q. change (inject_Z 1) with 1%Q. lra. }
  assert (k < 60 * h + 60)%Z as Hhi.
  { assert (inject_Z k < inject_Z (60 * h + 60))%Q as H;
      [| now rewrite <- Zlt_Qlt in H].
    rewrite inject_Z_plus, inject_Z_mult.
    change (inject_Z 60) with 60%Q. lra. }
  assert (inject_Z (60 * k) == 60 * inject_Z k) as Ek
    by (rewrite inject_Z_mult; reflexivity).
  assert (60 * inject_Z h <= inject_Z k)%Q as Hlo'.
  { change 60%Q with (inject_Z 60). rewrite <- inject_Z_mult.
    now rewrite <- Zle_Qle. }
  assert (inject_Z k < 60 * inject_Z h + 60)%Q as Hhi'.
  { change 60%Q with (inject_Z 60).
    rewrite <- inject_Z_mult, <- inject_Z_plus. now rewrite <- Zlt_Qlt. }
  assert (1 <= inject_Z h)%Q as Hh.
  { assert (0 < h)%Z as H; [| change 1%Q with (inject_Z 1);
                              rewrite <- Zle_Qle; lia].
    rewrite Zlt_Qlt. change (inject_Z 0) with 0%Q. lra. }
  assert (Qfloor (inject_Z (60 * k) / 3600) = h) as Eh.
  { apply Qfloor_bounds.
    - apply Qle_shift_div_l; lra.
    - apply Qlt_shift_div_r; lra. }
  assert (Qfloor ((seconds - 3600 * inject_Z h) / 60) = (k - 60 * h)%Z) as Em.
  { apply Qfloor_bounds.
    - apply Qle_shift_div_l; [lra |].
      push_inject_Z. lra.
    - apply Qlt_shift_div_r; [lra |].
      push_inject_Z. lra. }
  assert (Qfloor ((inject_Z (60 * k) - 3600 * inject_Z h) / 60)
          = (k - 60 * h)%Z) as Em'.
  { apply Qfloor_bounds.
    - apply Qle_shift_div_l; [lra |].
      push_inject_Z. lra.
    - apply Qlt_shift_div_r; [lra |].
      push_inject_Z. lra. }
  unfold format_time.
  rewrite (proj2 (Qltb_ge seconds 60)) by lra.
  rewrite (proj2 (Qltb_ge seconds 3600)) by lra.
  rewrite (proj2 (Qltb_ge (inject_Z (60 * k)) 60)) by lra.
  rewrite (proj2 (Qltb_ge (inject_Z (60 * k)) 3600)) by lra.
  unfold py_mod, py_floordiv. fold h. rewrite Eh, Em, Em'. reflexivity.
Qed.



(** *** Instances of the further properties *)



(** X5 for Safari on two different systems. *)
Lemma get_app_name_known_without_os_witness :
  (is_Some ((∅ : gmap string string) !! "com.apple.Safari") \/
   is_Some (Names.common_apps !! "com.apple.Safari")) /\
  Names.get_app_name offline_env ∅ "com.apple.Safari"
  = Names.get_app_name naming_env ∅ "com.apple.Safari".
Proof.
  assert (is_Some ((∅ : gmap string string) !! "com.apple.Safari") \/
          is_Some (Names.common_apps !! "com.apple.Safari")) as H
    by (right; exists "Safari"; vm_compute; reflexivity).
  split; [exact H |].
  exact (get_app_name_known_without_os offline_env naming_env ∅
           "com.apple.Safari" H).
Defined.

Lemma sample_usage_max : max_seconds_in_report 100 sample_usage.
Proof.
  split; [apply Exists_cons_hd; reflexivity |].
  repeat constructor; simpl; unfold Qle; simpl; lia.
Qed.


(** X16 on [sample_usage]: 29 filled glyphs for 99 seconds, 30 for 100. *)
Lemma bar_lengths_monotone_witness :
  exists rows row1 row2,
    bar_chart_rows (fun bundle_id => bundle_id) sample_usage 30 = Ok rows /\
    (0 <= 30)%Z /\
    sample_usage !! 1%nat = Some ("com.apple.finder", 99%Q) /\
    sample_usage !! 0%nat = Some ("com.apple.Safari", 100%Q) /\
    rows !! 1%nat = Some row1 /\ rows !! 0%nat = Some row2 /\
    (99 <= 100)%Q /\ (0 < 100)%Q /\
    (row_bar_length row1 <= row_bar_length row2)%Z.
Proof.
  assert (99 <= 100)%Q as Hle by (unfold Qle; simpl; lia).
  assert (0 <= 30)%Z as Hw by lia.
  eexists _, _, _.
  split; [vm_compute; reflexivity |]. split; [exact Hw |].
  split; [reflexivity |]. split; [reflexivity |].
  split; [reflexivity |]. split; [reflexivity |].
  split; [exact Hle |]. split; [reflexivity |].
  exact (bar_lengths_monotone (fun bundle_id => bundle_id) sample_usage 30 _
           1 0 ("com.apple.finder", 99%Q) ("com.apple.Safari", 100%Q) _ _
           eq_refl Hw eq_refl eq_refl eq_refl eq_refl Hle eq_refl).
Defined.

(** X17 on [zero_usage]. *)
Lemma bar_chart_zero_max_raises_witness :
  zero_usage <> [] /\
  Forall (fun rec => rec.2 == 0) zero_usage /\
  create_bar_chart (fun bundle_id => bundle_id) zero_usage 30
  = Raise ZeroDivisionError.
Proof.
  assert (zero_usage <> []) as Hne by discriminate.
  assert (Forall (fun rec => rec.2 == 0) zero_usage) as Hall
    by (repeat constructor).
  split; [exact Hne |]. split; [exact Hall |].
  exact (bar_chart_zero_max_raises (fun bundle_id => bundle_id) zero_usage 30
           Hne Hall).
Defined.

Lemma sample_buckets_not_empty :
  get_hourly_usage utc_hour sample_intervals <> ∅.
Proof.
  intros H.
  assert (get_hourly_usage utc_hour sample_intervals !! 0%nat = Some 200%Q)
    as H0 by (vm_compute; reflexivity).
  rewrite H, lookup_empty in H0. discriminate H0.
Qed.

(** X19 on the buckets of [sample_intervals], for the column of hour 2. *)
Lemma hourly_chart_columns_witness :
  get_hourly_usage utc_hour sample_intervals <> ∅ /\
  (2 < 24)%nat /\
  exists grid : list (list string),
    create_hourly_chart (get_hourly_usage utc_hour sample_intervals) 8
    = Ok (map (String.concat EmptyString) grid
          ++ [str_repeat "-" 24; hour_labels])%list /\
    length grid = 8%nat.
Proof.
  assert (2 < 24)%nat as Hhour by lia.
  split; [exact sample_buckets_not_empty |]. split; [exact Hhour |].
  destruct (hourly_chart_columns
              (get_hourly_usage utc_hour sample_intervals) 8 2
              sample_buckets_not_empty Hhour) as (grid & Hchart & Hlen & _).
  exists grid. split; [exact Hchart | exact Hlen].
Defined.

(** X20 for an interval that starts before 1970. *)
Lemma clock_failure_empties_chart_witness :
  Exists (fun r => exists e, clock_from_1970 (iv_start_time r) = Raise e)
         [mk_interval "com.apple.Safari" 3500 3700 200;
          mk_interval "com.apple.finder" (-500) (-300) 200] /\
  get_hourly_usage clock_from_1970
    [mk_interval "com.apple.Safari" 3500 3700 200;
     mk_interval "com.apple.finder" (-500) (-300) 200] = ∅.
Proof.
  assert (Exists
            (fun r => exists e, clock_from_1970 (iv_start_time r) = Raise e)
            [mk_interval "com.apple.Safari" 3500 3700 200;
             mk_interval "com.apple.finder" (-500) (-300) 200]) as Hex
    by (apply Exists_cons_tl, Exists_cons_hd; eexists; reflexivity).
  split; [exact Hex |].
  exact (proj1 (clock_failure_empties_chart clock_from_1970 _ 8 Hex)).
Defined.


(** X22 at 3599 seconds. *)
Lemma format_time_rounds_up_to_60_minutes_witness :
  (3597 <= 3599)%Q /\ (3599 < 3600)%Q /\ format_time 3599 = "60.0分钟".
Proof.
  assert (3597 <= 3599)%Q as Hlo by (unfold Qle; simpl; lia).
  split; [exact Hlo |]. split; [reflexivity |].
  exact (format_time_rounds_up_to_60_minutes 3599 Hlo eq_refl).
Defined.

(** X24 at 7199 seconds: one hour and 59 minutes. *)
Lemma format_time_hours_drop_seconds_witness :
  (3600 <= 7199)%Q /\
  format_time 7199 = format_time (inject_Z (60 * Qfloor (7199 / 60))).
Proof.
  assert (3600 <= 7199)%Q as Hge by (unfold Qle; simpl; lia).
  split; [exact Hge |].
  exact (format_time_hours_drop_seconds 7199 Hge).
Defined.


